(** * Bridge form validation of the Venus protocol interface

    A shallow embedding of the hook [useBridgeForm] (the form of the XVS
    bridge page): the values it derives from the data of its queries, the
    two validation callbacks [validateBridgeFeeMantissa] and
    [validateAmountMantissa], and the part of [formSchema] they are plugged
    into.

    The hook computes with [BigNumber] values of the bignumber.js library.
    Module [BN] gives these values and the operations the hook calls
    ([times], [dividedBy], [minus], [gt], [lt], [lte], [isZero], the
    constructor on strings) as the library documents them, with the
    library's default settings. *)

From Stdlib Require Import ZArith NArith List String Ascii Bool Lia.
Import ListNotations.

Open Scope Z_scope.

(* ================================================================== *)
(** ** bignumber.js values                                             *)
(* ================================================================== *)

Module BN.

(** A value is NaN, plus or minus Infinity, or a signed decimal
    [(-1)^neg * c * 10^e]; zero keeps its sign, as in the library. *)
Inductive BigNumber : Type :=
| NaN
| Infinity (neg : bool)
| Finite (neg : bool) (c : N) (e : Z).

(** Library defaults: quotients are rounded to [DECIMAL_PLACES] decimal
    places, half away from zero (ROUNDING_MODE 4, ROUND_HALF_UP); a
    magnitude whose decimal exponent leaves [MIN_EXP, MAX_EXP], which is
    -1e7 to 1e7, becomes zero or Infinity. *)
Definition DECIMAL_PLACES : Z := 20.
Definition MAX_EXP : Z := 10000000.
Definition MIN_EXP : Z := -10000000.

Definition pow10 (k : Z) : N := N.pow 10 (Z.to_N k).

(** Number of decimal digits of a coefficient (1 for 0). *)
Fixpoint digitsFuel (fuel : nat) (c : N) : Z :=
  match fuel with
  | O => 1
  | S f => if (c <? 10)%N then 1 else 1 + digitsFuel f (c / 10)%N
  end.

Definition digits (c : N) : Z := digitsFuel (N.to_nat (N.size c)) c.

(** Trailing zeros of the coefficient move into the exponent. *)
Fixpoint stripZeros (fuel : nat) (c : N) (e : Z) : N * Z :=
  match fuel with
  | O => (c, e)
  | S f =>
      if ((c mod 10 =? 0) && negb (c =? 0))%N
      then stripZeros f (c / 10)%N (e + 1)
      else (c, e)
  end.

(** The library's [normalise]: canonical coefficient, then the range
    check on the exponent of the leading digit. *)
Definition normalise (neg : bool) (c : N) (e : Z) : BigNumber :=
  if (c =? 0)%N then Finite neg 0 0
  else
    let '(c', e') := stripZeros (N.to_nat (N.size c)) c e in
    let sci := e' + digits c' - 1 in
    if MAX_EXP <? sci then Infinity neg
    else if sci <? MIN_EXP then Finite neg 0 0
    else Finite neg c' e'.

(** [new BigNumber(0)] and integer literals. *)
Definition zero : BigNumber := Finite false 0 0.

Definition ofZ (z : Z) : BigNumber := normalise (z <? 0) (Z.abs_N z) 0.

Definition isNaN (x : BigNumber) : bool :=
  match x with NaN => true | _ => false end.

Definition isZero (x : BigNumber) : bool :=
  match x with Finite _ c _ => (c =? 0)%N | _ => false end.

(** The sign field [s] of the library ([true] for -1); NaN has none. *)
Definition sign (x : BigNumber) : bool :=
  match x with
  | NaN => false
  | Infinity s => s
  | Finite s _ _ => s
  end.

Definition negated (x : BigNumber) : BigNumber :=
  match x with
  | NaN => NaN
  | Infinity s => Infinity (negb s)
  | Finite s c e => Finite (negb s) c e
  end.

(** Comparison of two magnitudes [c1 * 10^e1] and [c2 * 10^e2]. *)
Definition cmpMag (c1 : N) (e1 : Z) (c2 : N) (e2 : Z) : comparison :=
  let e := Z.min e1 e2 in
  (c1 * pow10 (e1 - e) ?= c2 * pow10 (e2 - e))%N.

(** The library's [compare]: [None] (null) when either side is NaN;
    zeros first, then signs, then infinities, then magnitudes. *)
Definition compare (x y : BigNumber) : option comparison :=
  match x, y with
  | NaN, _ | _, NaN => None
  | _, _ =>
      let a := isZero x in
      let b := isZero y in
      if a || b then
        Some (if a then (if b then Eq else if sign y then Gt else Lt)
              else if sign x then Lt else Gt)
      else if negb (Bool.eqb (sign x) (sign y)) then
        Some (if sign x then Lt else Gt)
      else
        match x, y with
        | Infinity _, Infinity _ => Some Eq
        | Infinity s, _ => Some (if s then Lt else Gt)
        | _, Infinity s => Some (if s then Gt else Lt)
        | Finite s c1 e1, Finite _ c2 e2 =>
            Some (if s then CompOpp (cmpMag c1 e1 c2 e2)
                  else cmpMag c1 e1 c2 e2)
        | _, _ => None
        end
  end.

(** [x.gt(y)], [x.lt(y)], [x.lte(y)], [x.gte(y)]: all false on NaN. *)
Definition gt (x y : BigNumber) : bool :=
  match compare x y with Some Gt => true | _ => false end.

Definition lt (x y : BigNumber) : bool :=
  match compare x y with Some Lt => true | _ => false end.

Definition lte (x y : BigNumber) : bool :=
  match compare x y with Some Lt | Some Eq => true | _ => false end.

Definition gte (x y : BigNumber) : bool :=
  match compare x y with Some Gt | Some Eq => true | _ => false end.

(** [x.times(y)]: NaN when either is NaN or for zero times Infinity; the
    sign is the product of the signs; finite products are exact. *)
Definition times (x y : BigNumber) : BigNumber :=
  match x, y with
  | NaN, _ | _, NaN => NaN
  | Infinity s1, Infinity s2 => Infinity (xorb s1 s2)
  | Infinity s1, Finite s2 c _ =>
      if (c =? 0)%N then NaN else Infinity (xorb s1 s2)
  | Finite s1 c _, Infinity s2 =>
      if (c =? 0)%N then NaN else Infinity (xorb s1 s2)
  | Finite s1 c1 e1, Finite s2 c2 e2 =>
      if ((c1 =? 0) || (c2 =? 0))%N then Finite (xorb s1 s2) 0 0
      else normalise (xorb s1 s2) (c1 * c2) (e1 + e2)
  end.

(** Quotient of two non-zero magnitudes, rounded half up at
    [DECIMAL_PLACES] decimal places. *)
Definition divMag (neg : bool) (c1 : N) (e1 : Z) (c2 : N) (e2 : Z)
  : BigNumber :=
  let k := e1 - e2 + DECIMAL_PLACES in
  let num := if 0 <=? k then (c1 * pow10 k)%N else c1 in
  let den := if 0 <=? k then c2 else (c2 * pow10 (- k))%N in
  let q := (num / den)%N in
  let r := (num mod den)%N in
  let q' := if (den <=? 2 * r)%N then (q + 1)%N else q in
  normalise neg q' (- DECIMAL_PLACES).

(** [x.dividedBy(y)]: never throws. NaN when either is NaN, for
    Infinity by Infinity and for zero by zero; a zero when the dividend is
    zero or the divisor infinite; an Infinity when the divisor is zero or
    the dividend infinite. *)
Definition dividedBy (x y : BigNumber) : BigNumber :=
  match x, y with
  | NaN, _ | _, NaN => NaN
  | Infinity _, Infinity _ => NaN
  | Infinity s1, Finite s2 _ _ => Infinity (xorb s1 s2)
  | Finite s1 _ _, Infinity s2 => Finite (xorb s1 s2) 0 0
  | Finite s1 c1 e1, Finite s2 c2 e2 =>
      if (c1 =? 0)%N then
        (if (c2 =? 0)%N then NaN else Finite (xorb s1 s2) 0 0)
      else if (c2 =? 0)%N then Infinity (xorb s1 s2)
      else divMag (xorb s1 s2) c1 e1 c2 e2
  end.

(** Sum and difference of two finite magnitudes on a common exponent. *)
Definition addMag (neg : bool) (c1 : N) (e1 : Z) (c2 : N) (e2 : Z)
  : BigNumber :=
  let e := Z.min e1 e2 in
  normalise neg (c1 * pow10 (e1 - e) + c2 * pow10 (e2 - e)) e.

Definition subMag (neg : bool) (c1 : N) (e1 : Z) (c2 : N) (e2 : Z)
  : BigNumber :=
  let e := Z.min e1 e2 in
  let a := (c1 * pow10 (e1 - e))%N in
  let b := (c2 * pow10 (e2 - e))%N in
  match (a ?= b)%N with
  | Eq => zero
  | Gt => normalise neg (a - b) e
  | Lt => normalise (negb neg) (b - a) e
  end.

(** [x.minus(y)]. With different signs the magnitudes add under the sign
    of [x]; with equal signs they subtract, Infinity minus Infinity is
    NaN and an exact cancellation is +0. *)
Definition minus (x y : BigNumber) : BigNumber :=
  match x, y with
  | NaN, _ | _, NaN => NaN
  | _, _ =>
      if negb (Bool.eqb (sign x) (sign y)) then
        match x, y with
        | Finite s c1 e1, Finite _ c2 e2 =>
            if (c2 =? 0)%N then (if (c1 =? 0)%N then Finite s 0 0 else x)
            else if (c1 =? 0)%N then negated y
            else addMag s c1 e1 c2 e2
        | _, _ => Infinity (sign x)
        end
      else
        match x, y with
        | Infinity _, Infinity _ => NaN
        | Infinity _, _ => x
        | _, Infinity _ => negated y
        | Finite s c1 e1, Finite _ c2 e2 =>
            if (c2 =? 0)%N then (if (c1 =? 0)%N then zero else x)
            else if (c1 =? 0)%N then negated y
            else subMag s c1 e1 c2 e2
        | _, _ => NaN
        end
  end.

(** *** The constructor on strings

    [new BigNumber(v)] for a string [v] whose code units are below 256.
    A string of the decimal grammar (an optional minus sign; digits with
    an optional dot and further digits, or a dot and digits; an optional
    exponent [e] or [E] with an optional sign and digits) is read
    exactly. Any other string loses its leading blanks, one leading plus
    sign that a word character or a dot follows, and its trailing blanks;
    what remains is [Infinity], [-Infinity], [NaN], [-NaN], a literal
    with a base prefix, a string of the decimal grammar, or else it
    reads as NaN: the constructor does not throw. *)

Definition isDigit (ch : ascii) : bool :=
  let n := nat_of_ascii ch in ((48 <=? n) && (n <=? 57))%nat.

Definition digitVal (ch : ascii) : N := N.of_nat (nat_of_ascii ch - 48).

(** White space of [\s] below 256: tab, line feed, vertical tab, form
    feed, carriage return, space, no-break space. *)
Definition isSpace (ch : ascii) : bool :=
  let n := nat_of_ascii ch in
  (((9 <=? n) && (n <=? 13)) || (n =? 32) || (n =? 160))%nat.

(** Word characters of [\w]. *)
Definition isWord (ch : ascii) : bool :=
  let n := nat_of_ascii ch in
  (isDigit ch || ((65 <=? n) && (n <=? 90)) || ((97 <=? n) && (n <=? 122))
   || (n =? 95))%nat.

(** Reads a run of digits: coefficient so far, digits read, rest. *)
Fixpoint readDigits (s : string) (acc : N) (n : Z) : N * Z * string :=
  match s with
  | String ch s' =>
      if isDigit ch then readDigits s' (acc * 10 + digitVal ch)%N (n + 1)
      else (acc, n, s)
  | EmptyString => (acc, n, s)
  end.

(** The exponent part, which must end the string. *)
Definition readExponent (s : string) : option Z :=
  match s with
  | EmptyString => Some 0
  | String ch s1 =>
      if (Ascii.eqb ch "e" || Ascii.eqb ch "E")%char then
        let '(neg, s2) :=
          match s1 with
          | String "-"%char r => (true, r)
          | String "+"%char r => (false, r)
          | _ => (false, s1)
          end in
        match readDigits s2 0 0 with
        | (v, n, EmptyString) =>
            if 0 <? n then Some (if neg then - Z.of_N v else Z.of_N v)
            else None
        | _ => None
        end
      else None
  end.

Definition ofDecimalString (str : string) : option BigNumber :=
  let '(neg, s0) :=
    match str with
    | String "-"%char r => (true, r)
    | _ => (false, str)
    end in
  let '(ci, ni, s1) := readDigits s0 0 0 in
  let body :=
    match s1 with
    | String "."%char s2 =>
        let '(c, nf, s3) := readDigits s2 ci 0 in
        if (0 <? ni) || (0 <? nf) then Some (c, nf, s3) else None
    | _ => if 0 <? ni then Some (ci, 0, s1) else None
    end in
  match body with
  | None => None
  | Some (c, nf, rest) =>
      match readExponent rest with
      | None => None
      | Some x => Some (normalise neg c (x - nf))
      end
  end.

Fixpoint dropSpaces (s : string) : string :=
  match s with
  | String ch r => if isSpace ch then dropSpaces r else s
  | EmptyString => s
  end.

Fixpoint dropTrailingSpaces (s : string) : string :=
  match s with
  | EmptyString => EmptyString
  | String ch r =>
      match dropTrailingSpaces r with
      | EmptyString => if isSpace ch then EmptyString else String ch EmptyString
      | r' => String ch r'
      end
  end.

Definition stripBlanksAndPlus (str : string) : string :=
  let s := dropSpaces str in
  let s1 :=
    match s with
    | String "+"%char (String ch _ as r) =>
        if isWord ch || Ascii.eqb ch "."%char then r else s
    | _ => s
    end in
  dropTrailingSpaces s1.

Fixpoint allWordOrDot (s : string) : bool :=
  match s with
  | EmptyString => true
  | String ch r => (isWord ch || Ascii.eqb ch "."%char) && allWordOrDot r
  end.

(** [-?0[xbo]] before a word character, word characters and dots to the
    end of the string. *)
Definition hasBasePrefix (s : string) : bool :=
  let s0 := match s with String "-"%char r => r | _ => s end in
  match s0 with
  | String "0"%char (String p (String ch r)) =>
      (Ascii.eqb p "x" || Ascii.eqb p "X" || Ascii.eqb p "b"
       || Ascii.eqb p "B" || Ascii.eqb p "o" || Ascii.eqb p "O")%char
      && isWord ch && allWordOrDot r
  | _ => false
  end.

(** [new BigNumber(v)]. The conversion of a literal with a base prefix
    (hexadecimal, binary, octal) is the parameter [prefixed]. *)
Definition ofString (prefixed : string -> BigNumber) (str : string)
  : BigNumber :=
  match ofDecimalString str with
  | Some v => v
  | None =>
      let s := stripBlanksAndPlus str in
      if String.eqb s "Infinity" then Infinity false
      else if String.eqb s "-Infinity" then Infinity true
      else if String.eqb s "NaN" || String.eqb s "-NaN" then NaN
      else if hasBasePrefix s then prefixed s
      else match ofDecimalString s with
           | Some v => v
           | None => NaN
           end
  end.

End BN.

Import BN.
Open Scope string_scope.
Open Scope Z_scope.

(* ================================================================== *)
(** ** Dates of the JavaScript runtime                                 *)
(* ================================================================== *)

(** A [Date] object holds a time value: milliseconds since the epoch, or
    NaN (an invalid date, [None]). The day arithmetic below is the one of
    the ECMAScript specification, on integers. *)
Definition JSDate : Type := option Z.

Definition msPerDay : Z := 86400000.

Definition Day (t : Z) : Z := t / msPerDay.

Definition TimeWithinDay (t : Z) : Z := t mod msPerDay.

Definition DaysInYear (y : Z) : Z :=
  if negb (y mod 4 =? 0) then 365
  else if negb (y mod 100 =? 0) then 366
  else if negb (y mod 400 =? 0) then 365
  else 366.

Definition DayFromYear (y : Z) : Z :=
  365 * (y - 1970) + (y - 1969) / 4 - (y - 1901) / 100 + (y - 1601) / 400.

Definition TimeFromYear (y : Z) : Z := msPerDay * DayFromYear y.

(** The largest year that starts at or before [t], searched downwards
    from an upper estimate. *)
Fixpoint yearSearch (fuel : nat) (y t : Z) : Z :=
  match fuel with
  | O => y
  | S f => if TimeFromYear y <=? t then y else yearSearch f (y - 1) t
  end.

Definition YearFromTime (t : Z) : Z :=
  let d := Day t in
  yearSearch (Z.to_nat (Z.abs d / 100000 + 3))
             (1970 + Z.max (d / 365) (d / 366)) t.

Definition InLeapYear (t : Z) : Z :=
  if DaysInYear (YearFromTime t) =? 366 then 1 else 0.

Definition DayWithinYear (t : Z) : Z := Day t - DayFromYear (YearFromTime t).

Definition MonthFromTime (t : Z) : Z :=
  let d := DayWithinYear t in
  let l := InLeapYear t in
  if d <? 31 then 0
  else if d <? 59 + l then 1
  else if d <? 90 + l then 2
  else if d <? 120 + l then 3
  else if d <? 151 + l then 4
  else if d <? 181 + l then 5
  else if d <? 212 + l then 6
  else if d <? 243 + l then 7
  else if d <? 273 + l then 8
  else if d <? 304 + l then 9
  else if d <? 334 + l then 10
  else 11.

Definition DateFromTime (t : Z) : Z :=
  let d := DayWithinYear t in
  let l := InLeapYear t in
  match MonthFromTime t with
  | 0 => d + 1
  | 1 => d - 30
  | 2 => d - 58 - l
  | 3 => d - 89 - l
  | 4 => d - 119 - l
  | 5 => d - 150 - l
  | 6 => d - 180 - l
  | 7 => d - 211 - l
  | 8 => d - 242 - l
  | 9 => d - 272 - l
  | 10 => d - 303 - l
  | _ => d - 333 - l
  end.

(** Day number of the first day of month [mn] (0 to 11) of year [ym]. *)
Definition firstDayOfMonth (ym mn : Z) : Z :=
  let l := if DaysInYear ym =? 366 then 1 else 0 in
  DayFromYear ym +
  match mn with
  | 0 => 0
  | 1 => 31
  | 2 => 59 + l
  | 3 => 90 + l
  | 4 => 120 + l
  | 5 => 151 + l
  | 6 => 181 + l
  | 7 => 212 + l
  | 8 => 243 + l
  | 9 => 273 + l
  | 10 => 304 + l
  | _ => 334 + l
  end.

Definition MakeDay (year month date : Z) : Z :=
  let ym := year + month / 12 in
  let mn := month mod 12 in
  firstDayOfMonth ym mn + date - 1.

Definition MakeDate (day time : Z) : Z := day * msPerDay + time.

Definition TimeClip (t : Z) : JSDate :=
  if Z.abs t <=? 8640000000000000 then Some t else None.

(** The result of [BigNumber.toNumber()] as far as a date needs it. An
    integral value [z] stands for the double nearest to [z] ([z] itself
    up to 2^53); a value with a fractional part is kept as it is, its
    binary rounding is not modelled. *)
Inductive JSNumber : Type :=
| NumNaN
| NumInfinity (neg : bool)
| NumInt (z : Z)
| NumFraction (b : BigNumber).

Definition toNumber (x : BigNumber) : JSNumber :=
  match x with
  | NaN => NumNaN
  | Infinity s => NumInfinity s
  | Finite s c e =>
      let signed (n : N) := if s then - Z.of_N n else Z.of_N n in
      if 0 <=? e then NumInt (signed (c * pow10 e)%N)
      else if (c mod pow10 (- e) =? 0)%N
      then NumInt (signed (c / pow10 (- e))%N)
      else NumFraction x
  end.

(* ================================================================== *)
(** ** Collaborators of the hook                                       *)
(* ================================================================== *)

(** A value interpolated into a translated message. *)
Inductive TranslationArg : Type :=
| ArgUndefined
| ArgString (s : string)
| ArgDate (d : JSDate).

(** The translation function [t] of a key with its interpolation values.
    The text belongs to the translation files; the message is kept as
    the key and the values handed over. *)
Record Message : Type := {
  key : string;
  options : list (string * TranslationArg)
}.

Definition t (key : string) (options : list (string * TranslationArg))
  : Message :=
  {| key := key; options := options |}.

(** What the hook imports and this repository's sources do not show: the
    [Token] type with its [symbol] and the utilities that format amounts;
    and what belongs to the runtime: the local time zone ([LocalTime],
    [UTC]), the date of a unix time with a fractional part, the
    bignumber.js conversion of a literal with a base prefix. *)
Class Host : Type := {
  Token : Type;
  symbol : Token -> string;
  Cents : Type;
  convertDollarsToCents : BigNumber -> Cents;
  formatCentsToReadableValue : Cents -> string;
  formatTokensToReadableValue : BigNumber -> option Token -> string;
  LocalTime : Z -> Z;
  UTC : Z -> Z;
  fromFractionalUnixTime : BigNumber -> JSDate;
  prefixedLiteral : string -> BigNumber
}.

(** An issue of a zod parse: the one of [min], or a custom one added
    through [ctx.addIssue]. *)
Inductive ZodIssue : Type :=
| TooSmall (minimum : Z)
| Custom (message : Message) (path : list string).

(** The refinement context, as the issues added so far. *)
Definition RefinementCtx : Type := list ZodIssue.

Definition addIssue (ctx : RefinementCtx) (issue : ZodIssue) : RefinementCtx :=
  (ctx ++ [issue])%list.

(** A value of type [unknown]: a BigNumber instance or anything else. *)
Inductive Unknown : Type :=
| UBigNumber (b : BigNumber)
| UUndefined
| UOther (description : string).

Definition isBigNumber (v : Unknown) : bool :=
  match v with UBigNumber _ => true | _ => false end.

(** Data of the queries the hook reads. *)
Record GetTokenUsdPriceOutput : Type := {
  tokenPriceUsd : option BigNumber
}.

Module Status.

Record GetXvsBridgeStatusOutput : Type := {
  maxSingleTransactionLimitUsd : BigNumber;
  dailyLimitResetTimestamp : BigNumber;
  totalTransferredLast24HourUsd : BigNumber;
  maxDailyLimitUsd : BigNumber
}.

End Status.

Definition GetXvsBridgeStatusOutput : Type :=
  Status.GetXvsBridgeStatusOutput.

Record GetBalanceOfOutput : Type := {
  balanceMantissa : BigNumber
}.

(* ================================================================== *)
(** ** The hook                                                        *)
(* ================================================================== *)

(** The hook recomputes its memoised values and callbacks from the
    current inputs on every change of these: each of them is a function
    of the inputs. A callback that adds issues to the zod context takes
    the context and returns it with the issues added. *)
Section UseBridgeForm.

Context {H : Host}.

(** [fromUnixTime] of date-fns on the number of seconds. *)
Definition fromUnixTime (n : JSNumber) : JSDate :=
  match n with
  | NumNaN => None
  | NumInfinity _ => None
  | NumInt z => TimeClip (z * 1000)
  | NumFraction b => fromFractionalUnixTime b
  end.

(** [date.getDate()]: the day of the month in local time, NaN ([None])
    for an invalid date. *)
Definition getDate (date : JSDate) : option Z :=
  match date with
  | None => None
  | Some tv => Some (DateFromTime (LocalTime tv))
  end.

(** [date.setDate(dt)]: the date after the call. *)
Definition setDate (date : JSDate) (dt : option Z) : JSDate :=
  match date, dt with
  | Some tv, Some d =>
      let lt := LocalTime tv in
      let newDate :=
        MakeDate (MakeDay (YearFromTime lt) (MonthFromTime lt) d)
                 (TimeWithinDay lt) in
      TimeClip (UTC newDate)
  | _, _ => None
  end.

(** What the hook receives: its input and the current data of its
    queries ([None] while a query has no data). *)
Record Inputs : Type := {
  walletBalanceTokens : BigNumber;
  xvs : option Token;
  getTokenUsdPriceData : option GetTokenUsdPriceOutput;
  getXvsBridgeStatusData : option GetXvsBridgeStatusOutput;
  getBalanceOfNativeTokenData : option GetBalanceOfOutput
}.

Variable i : Inputs.

Definition xvsPriceUsd : BigNumber :=
  match getTokenUsdPriceData i with
  | Some data =>
      match tokenPriceUsd data with
      | Some price => price
      | None => zero
      end
  | None => zero
  end.

Definition nativeTokenBalanceMantissa : BigNumber :=
  match getBalanceOfNativeTokenData i with
  | Some data => balanceMantissa data
  | None => zero
  end.

Definition maxSingleTransactionLimitUsd : BigNumber :=
  match getXvsBridgeStatusData i with
  | Some data => Status.maxSingleTransactionLimitUsd data
  | None => zero
  end.

Definition dailyLimitResetTimestamp : BigNumber :=
  match getXvsBridgeStatusData i with
  | Some data => Status.dailyLimitResetTimestamp data
  | None => zero
  end.

Definition remainingXvsDailyLimit : BigNumber * BigNumber :=
  match getXvsBridgeStatusData i with
  | Some data =>
      let remainingUsdValue :=
        minus (Status.maxDailyLimitUsd data)
              (Status.totalTransferredLast24HourUsd data) in
      let remaningTokensAmount :=
        if negb (isZero xvsPriceUsd)
        then dividedBy remainingUsdValue xvsPriceUsd
        else zero in
      (remainingUsdValue, remaningTokensAmount)
  | None => (zero, zero)
  end.

Definition remainingXvsDailyLimitUsd : BigNumber :=
  fst remainingXvsDailyLimit.

Definition remainingXvsDailyLimitTokens : BigNumber :=
  snd remainingXvsDailyLimit.

Definition validateBridgeFeeMantissa (bridgeFeeMantissa : Unknown) : bool :=
  match bridgeFeeMantissa with
  | UBigNumber fee => gt fee zero && lte fee nativeTokenBalanceMantissa
  | _ => true
  end.

Definition validateAmountMantissa (v : string) (ctx : RefinementCtx)
  : RefinementCtx :=
  let xvsAmountTokens := ofString prefixedLiteral v in
  let xvsAmountUsd := times xvsAmountTokens xvsPriceUsd in
  let isSingleTransactionLimitExceeded :=
    gt xvsAmountUsd maxSingleTransactionLimitUsd in
  let maxSingleTransactionLimitTokens :=
    dividedBy maxSingleTransactionLimitUsd xvsPriceUsd in
  let doesNotHaveEnoughXvs := lt (walletBalanceTokens i) xvsAmountTokens in
  let ctx1 :=
    if isSingleTransactionLimitExceeded then
      let readableAmountTokens :=
        formatTokensToReadableValue maxSingleTransactionLimitTokens (xvs i) in
      let readableAmountUsd :=
        formatCentsToReadableValue
          (convertDollarsToCents maxSingleTransactionLimitUsd) in
      addIssue ctx
        (Custom
           (t "bridgePage.errors.singleTransactionLimitExceeded.message"
              [("readableAmountTokens", ArgString readableAmountTokens);
               ("readableAmountUsd", ArgString readableAmountUsd)])
           ["singleTransactionLimitExceeded"])
    else ctx in
  let isDailyTransactionLimitExceeded :=
    gt xvsAmountUsd remainingXvsDailyLimitUsd in
  let ctx2 :=
    if isDailyTransactionLimitExceeded then
      let readableAmountTokens :=
        formatTokensToReadableValue remainingXvsDailyLimitTokens (xvs i) in
      let readableAmountUsd :=
        formatCentsToReadableValue
          (convertDollarsToCents remainingXvsDailyLimitUsd) in
      let date := fromUnixTime (toNumber dailyLimitResetTimestamp) in
      let date := setDate date (option_map (fun d => d + 1) (getDate date)) in
      addIssue ctx1
        (Custom
           (t "bridgePage.errors.dailyTransactionLimitExceeded.message"
              [("readableAmountTokens", ArgString readableAmountTokens);
               ("readableAmountUsd", ArgString readableAmountUsd);
               ("date", ArgDate date)])
           ["dailyTransactionLimitExceeded"])
    else ctx1 in
  if doesNotHaveEnoughXvs then
    addIssue ctx2
      (Custom
         (t "bridgePage.errors.doesNotHaveEnoughXvs"
            [("tokenSymbol",
              match xvs i with
              | Some token => ArgString (symbol token)
              | None => ArgUndefined
              end)])
         ["doesNotHaveEnoughXvs"])
  else ctx2.

(** The [amountTokens] field of [formSchema]:
    [z.string().min(1).superRefine(validateAmountMantissa)]. The issue of
    [min] is not fatal: zod runs the refinement on the string all the
    same and collects the issues of both. *)
Definition amountTokensSchema (v : string) : list ZodIssue :=
  let ctx := if Z.of_nat (String.length v) <? 1 then [TooSmall 1] else [] in
  validateAmountMantissa v ctx.

End UseBridgeForm.

(* ================================================================== *)
(** ** Reading the result of the validator                             *)
(* ================================================================== *)

(** An issue is filed under a name when its path is that single name. *)
Definition hasPath (p : string) (issue : ZodIssue) : bool :=
  match issue with
  | Custom _ [q] => String.eqb p q
  | _ => false
  end.

Definition reports (p : string) (ctx : RefinementCtx) : bool :=
  existsb (hasPath p) ctx.

Definition messageOf (issue : ZodIssue) : option Message :=
  match issue with
  | Custom m _ => Some m
  | TooSmall _ => None
  end.

(** The values a message carries under a name. *)
Definition optionNamed (name : string) (m : Message)
  : list TranslationArg :=
  map snd (filter (fun o => String.eqb name (fst o)) (options m)).

(** An issue carries readable limit amounts when its message is given a
    [readableAmountTokens] and a [readableAmountUsd]. *)
Definition carriesLimitAmounts (issue : ZodIssue) : bool :=
  match messageOf issue with
  | Some m =>
      negb (Nat.eqb (List.length (optionNamed "readableAmountTokens" m)) 0)
      && negb (Nat.eqb (List.length (optionNamed "readableAmountUsd" m)) 0)
  | None => false
  end.

(** A host in the UTC zone with plain utilities, to run the definitions
    on examples: a token is its symbol, cents are dollars times 100. No
    example holds a literal with a base prefix or a timestamp with a
    fractional part: the last two fields only fill the record. *)
Definition utcHost : Host := {|
  Token := string;
  symbol := fun s => s;
  Cents := BigNumber;
  convertDollarsToCents := fun d => times d (ofZ 100);
  formatCentsToReadableValue := fun _ => "cents";
  formatTokensToReadableValue := fun _ _ => "tokens";
  LocalTime := fun tv => tv;
  UTC := fun tv => tv;
  fromFractionalUnixTime := fun _ => None;
  prefixedLiteral := fun _ => NaN
|}.

(** Inputs of the examples: a wallet balance, a price, and the bridge
    status. *)
Definition exampleStatus (single daily used reset : BigNumber)
  : GetXvsBridgeStatusOutput :=
  {| Status.maxSingleTransactionLimitUsd := single;
     Status.dailyLimitResetTimestamp := reset;
     Status.totalTransferredLast24HourUsd := used;
     Status.maxDailyLimitUsd := daily |}.

Definition exampleInputs (balance price : BigNumber)
  (status : option GetXvsBridgeStatusOutput) : @Inputs utcHost :=
  @Build_Inputs utcHost balance (Some "XVS")
    (Some {| tokenPriceUsd := Some price |})
    status
    (Some {| balanceMantissa := ofZ 7 |}).

Definition ex (balance price single daily used : Z) : @Inputs utcHost :=
  exampleInputs (ofZ balance) (ofZ price)
    (Some (exampleStatus (ofZ single) (ofZ daily) (ofZ used)
                         (ofZ 1700000000))).

(** Balance 100, price $1, single limit $1000, daily limit $1000, nothing
    used. *)
Definition exValid : @Inputs utcHost := ex 100 1 1000 1000 0.

(** Balance 100, price $30, single limit $1000. *)
Definition exSingle : @Inputs utcHost := ex 100 30 1000 100000 0.

(** Balance 100, price $1, daily limit $1000 of which $980 are used. *)
Definition exDaily : @Inputs utcHost := ex 100 1 1000 1000 980.

(** Balance 10, price $1, limits of $1000. *)
Definition exBalance : @Inputs utcHost := ex 10 1 1000 1000 0.

(** Balance 10, price $1, single limit $100, no daily limit. *)
Definition exBoth : @Inputs utcHost :=
  exampleInputs (ofZ 10) (ofZ 1)
    (Some (exampleStatus (ofZ 100) (Infinity false) (ofZ 0)
                         (ofZ 1700000000))).

(** A price below zero: $-1, daily limit $1000 of which $980 are used. *)
Definition exNegativePrice : @Inputs utcHost := ex 100 (-1) 1000 1000 980.

Section Reading.

Context {H : Host}.

Variable i : Inputs.

(** The amount the validator reads from the field, and its value. *)
Definition xvsAmountTokens (v : string) : BigNumber :=
  ofString prefixedLiteral v.

Definition xvsAmountUsd (v : string) : BigNumber :=
  times (xvsAmountTokens v) (xvsPriceUsd i).

(** One day later on the local calendar, at the same local time. *)
Definition nextLocalDay (date : JSDate) : JSDate :=
  match date with
  | Some tv => TimeClip (UTC (LocalTime tv + msPerDay))
  | None => None
  end.

(** The three issues the validator can add. *)
Definition singleTransactionLimitExceededIssue : ZodIssue :=
  Custom
    (t "bridgePage.errors.singleTransactionLimitExceeded.message"
       [("readableAmountTokens",
         ArgString
           (formatTokensToReadableValue
              (dividedBy (maxSingleTransactionLimitUsd i) (xvsPriceUsd i))
              (xvs i)));
        ("readableAmountUsd",
         ArgString
           (formatCentsToReadableValue
              (convertDollarsToCents (maxSingleTransactionLimitUsd i))))])
    ["singleTransactionLimitExceeded"].

Definition dailyTransactionLimitExceededIssue : ZodIssue :=
  Custom
    (t "bridgePage.errors.dailyTransactionLimitExceeded.message"
       [("readableAmountTokens",
         ArgString
           (formatTokensToReadableValue (remainingXvsDailyLimitTokens i)
                                        (xvs i)));
        ("readableAmountUsd",
         ArgString
           (formatCentsToReadableValue
              (convertDollarsToCents (remainingXvsDailyLimitUsd i))));
        ("date",
         ArgDate
           (nextLocalDay
              (fromUnixTime (toNumber (dailyLimitResetTimestamp i)))))])
    ["dailyTransactionLimitExceeded"].

Definition doesNotHaveEnoughXvsIssue : ZodIssue :=
  Custom
    (t "bridgePage.errors.doesNotHaveEnoughXvs"
       [("tokenSymbol",
         match xvs i with
         | Some token => ArgString (symbol token)
         | None => ArgUndefined
         end)])
    ["doesNotHaveEnoughXvs"].

End Reading.

(* ================================================================== *)
(** ** Magnitudes on a common exponent                                 *)
(* ================================================================== *)

(** The coefficient of [c * 10^e] written on the exponent [m <= e]. *)
Definition scaled (c : N) (e m : Z) : N := (c * pow10 (e - m))%N.

(* ================================================================== *)
(** ** The chains of the form                                          *)
(* ================================================================== *)

(** A chain of the wallet package, as far as the hook reads it:
    [chain.id] and [chain.nativeCurrency.name]. A chain id is a member of
    the numeric enum [ChainId]. *)
Module Chain.

Record t : Type := {
  id : Z;
  nativeCurrencyName : string
}.

End Chain.

(** The two chain fields of the form; a field can be undefined. *)
Record ChainFields : Type := {
  fromChainId : option Z;
  toChainId : option Z
}.

Section Chains.

(** The list [chains] of the wallet package and the two members of
    [ChainId] the hook names. *)
Variable chains : list Chain.t.
Variables BSC_MAINNET BSC_TESTNET : Z.

(** [chainId !== formFromChainId], the form value being a chain id or
    undefined. *)
Definition differsFrom (chainId : Z) (formChainId : option Z) : bool :=
  match formChainId with
  | Some c => negb (chainId =? c)
  | None => true
  end.

(** [toChainId] of [defaultValues]:
    [chains.find(chain => chain.id !== chainId)?.id]. *)
Definition defaultToChainId (chainId : Z) : option Z :=
  option_map Chain.id
    (find (fun chain => negb (Chain.id chain =? chainId)) chains).

(** The effect that follows the chain of the wallet: the form after the
    effect has run on the form [form] with the wallet on [chainId]. *)
Definition syncChains (chainId : Z) (form : ChainFields) : ChainFields :=
  let previousFromChainId := fromChainId form in
  if differsFrom chainId (fromChainId form) then
    let form1 := {| fromChainId := Some chainId;
                    toChainId := toChainId form |} in
    if negb (chainId =? BSC_MAINNET) && negb (chainId =? BSC_TESTNET) then
      let bscChainId :=
        option_map Chain.id
          (find (fun c => String.eqb (Chain.nativeCurrencyName c) "BNB")
                chains) in
      {| fromChainId := fromChainId form1; toChainId := bscChainId |}
    else
      {| fromChainId := fromChainId form1;
         toChainId := previousFromChainId |}
  else form.

End Chains.

(* ================================================================== *)
(** ** The schema of the form                                          *)
(* ================================================================== *)

(** The values of the form handed to the schema. *)
Record FormValues : Type := {
  formFromChainId : option Z;
  formToChainId : option Z;
  amountTokens : string;
  bridgeEstimatedFeeMantissa : Unknown
}.

(** An issue of the schema, by the field it is filed under. *)
Inductive FormIssue : Type :=
| NotAChainId (field : string)
| InAmountTokens (issue : ZodIssue)
| InvalidBridgeFee.

Section FormSchema.

Context {H : Host}.

(** Membership in the enum [ChainId]. *)
Variable isChainId : Z -> bool.

(** [z.nativeEnum(ChainId)] on a field. *)
Definition nativeEnumChainId (field : string) (value : option Z)
  : list FormIssue :=
  match value with
  | Some c => if isChainId c then [] else [NotAChainId field]
  | None => [NotAChainId field]
  end.

(** [formSchema]: the object schema parses its four fields in the order
    they are written and collects the issues of all of them. *)
Definition formSchema (i : Inputs) (values : FormValues) : list FormIssue :=
  (nativeEnumChainId "fromChainId" (formFromChainId values)
   ++ nativeEnumChainId "toChainId" (formToChainId values)
   ++ map InAmountTokens (amountTokensSchema i (amountTokens values))
   ++ (if validateBridgeFeeMantissa i (bridgeEstimatedFeeMantissa values)
       then [] else [InvalidBridgeFee]))%list.

End FormSchema.

(* ================================================================== *)
(** ** The authentication provider                                     *)
(* ================================================================== *)

Module Auth.

Section Provider.

(** The connector type of the web3 client. *)
Context {Connector : Type}.

(** What the handlers of the provider call outside of it. *)
Inductive Call : Type :=
| CallLogin (connector : Connector)
| CallCopyToClipboard (text : string)
| CallToastSuccess (title : string).

(** The state of the provider and the calls made so far. *)
Record State : Type := {
  isAuthModalOpen : bool;
  calls : list Call
}.

Definition openAuthModal (st : State) : State :=
  {| isAuthModalOpen := true; calls := calls st |}.

Definition closeAuthModal (st : State) : State :=
  {| isAuthModalOpen := false; calls := calls st |}.

Definition handleLogin (connector : Connector) (st : State) : State :=
  closeAuthModal
    {| isAuthModalOpen := isAuthModalOpen st;
       calls := (calls st ++ [CallLogin connector])%list |}.

Definition handleCopyAccountAddress (accountAddressToCopy : string)
  (st : State) : State :=
  {| isAuthModalOpen := isAuthModalOpen st;
     calls := (calls st
               ++ [CallCopyToClipboard accountAddressToCopy;
                   CallToastSuccess "Wallet address copied to clipboard"])%list
  |}.

(** The account of the context: undefined unless the address is a
    non-empty string. *)
Record Account : Type := {
  address : string;
  connectedConnector : option Connector
}.

Definition account (accountAddress : option string)
  (connected : option Connector) : option Account :=
  match accountAddress with
  | Some a =>
      if String.eqb a "" then None
      else Some {| address := a; connectedConnector := connected |}
  | None => None
  end.

(** What the modal and the consumers of the context can trigger. *)
Inductive Event : Type :=
| OpenAuthModal
| CloseAuthModal
| Login (connector : Connector)
| CopyAccountAddress (text : string).

Definition step (st : State) (ev : Event) : State :=
  match ev with
  | OpenAuthModal => openAuthModal st
  | CloseAuthModal => closeAuthModal st
  | Login c => handleLogin c st
  | CopyAccountAddress a => handleCopyAccountAddress a st
  end.

Definition run (st : State) (evs : list Event) : State :=
  fold_left step evs st.

Definition loginsOf (evs : list Event) : list Connector :=
  flat_map (fun ev => match ev with Login c => [c] | _ => [] end) evs.

Definition loginCalls (cs : list Call) : list Connector :=
  flat_map (fun c => match c with CallLogin k => [k] | _ => [] end) cs.

End Provider.

End Auth.

(* ================================================================== *)
(** ** More inputs for the examples                                    *)
(* ================================================================== *)

(** Balance 10, the price not loaded, limits of $1000. *)
Definition exNoPrice : @Inputs utcHost :=
  @Build_Inputs utcHost (ofZ 10) (Some "XVS") None
    (Some (exampleStatus (ofZ 1000) (ofZ 1000) (ofZ 0) (ofZ 1700000000)))
    (Some {| balanceMantissa := ofZ 7 |}).

(** Balance 100, price $1, the bridge status not loaded. *)
Definition exNoStatus : @Inputs utcHost :=
  exampleInputs (ofZ 100) (ofZ 1) None.

(** As [exValid], the balance of the native token not loaded. *)
Definition exNoNativeBalance : @Inputs utcHost :=
  @Build_Inputs utcHost (ofZ 100) (Some "XVS")
    (Some {| tokenPriceUsd := Some (ofZ 1) |})
    (Some (exampleStatus (ofZ 1000) (ofZ 1000) (ofZ 0) (ofZ 1700000000)))
    None.

(** As [exValid], with a native balance of 9 instead of 7. *)
Definition exLargerNativeBalance : @Inputs utcHost :=
  @Build_Inputs utcHost (ofZ 100) (Some "XVS")
    (Some {| tokenPriceUsd := Some (ofZ 1) |})
    (Some (exampleStatus (ofZ 1000) (ofZ 1000) (ofZ 0) (ofZ 1700000000)))
    (Some {| balanceMantissa := ofZ 9 |}).

(** Chains for the examples: the two BSC chains (56, 97), Ethereum (1)
    and Sepolia (11155111). *)
Definition exChains : list Chain.t :=
  [ {| Chain.id := 56; Chain.nativeCurrencyName := "BNB" |};
    {| Chain.id := 97; Chain.nativeCurrencyName := "BNB" |};
    {| Chain.id := 1; Chain.nativeCurrencyName := "Ether" |};
    {| Chain.id := 11155111; Chain.nativeCurrencyName := "Sepolia Ether" |} ].

(** The same with opBNB (204), whose native currency is BNB, first. *)
Definition exChainsOpBnb : list Chain.t :=
  {| Chain.id := 204; Chain.nativeCurrencyName := "BNB" |} :: exChains.

Definition exIsChainId (c : Z) : bool :=
  existsb (fun chain => Chain.id chain =? c) exChains.

(* ================================================================== *)
(** ** Facts about bignumber.js comparisons                            *)
(* ================================================================== *)

Section ComparisonFacts.

Lemma lte_gt_false (a b : BigNumber) : lte a b = true -> gt a b = false.
Proof.
  unfold lte, gt. destruct (compare a b) as [[ | | ] | ]; easy.
Qed.

Lemma gt_lte_false (a b : BigNumber) : gt a b = true -> lte a b = false.
Proof.
  unfold lte, gt. destruct (compare a b) as [[ | | ] | ]; easy.
Qed.

Lemma cmpMag_antisym (c1 : N) (e1 : Z) (c2 : N) (e2 : Z) :
  cmpMag c2 e2 c1 e1 = CompOpp (cmpMag c1 e1 c2 e2).
Proof.
  unfold cmpMag. rewrite (Z.min_comm e2 e1). apply N.compare_antisym.
Qed.

(** Swapping the sides of a comparison reverses its result. *)
Lemma compare_antisym (x y : BigNumber) :
  compare y x = option_map CompOpp (compare x y).
Proof.
  destruct x as [ | sx | sx cx ex]; destruct y as [ | sy | sy cy ey];
    unfold compare; simpl; try reflexivity.
  - destruct sx, sy; reflexivity.
  - destruct (cy =? 0)%N; simpl; destruct sx, sy; reflexivity.
  - destruct (cx =? 0)%N; simpl; destruct sx, sy; reflexivity.
  - destruct (cx =? 0)%N, (cy =? 0)%N; simpl; destruct sx, sy; simpl;
      try reflexivity; rewrite cmpMag_antisym;
      try rewrite CompOpp_involutive; reflexivity.
Qed.

Lemma lte_lt_false (a b : BigNumber) : lte a b = true -> lt b a = false.
Proof.
  unfold lte, lt. rewrite (compare_antisym a b).
  destruct (compare a b) as [[ | | ] | ]; easy.
Qed.

(** A number below zero carries the minus sign and is not a zero. *)
Lemma lt_zero_inv (x : BigNumber) :
  lt x zero = true -> sign x = true /\ isZero x = false /\ isNaN x = false.
Proof.
  destruct x as [ | s | s c e]; unfold lt, compare; simpl.
  - discriminate.
  - destruct s; simpl; intuition discriminate.
  - destruct (c =? 0)%N; simpl; [discriminate | ].
    destruct s; simpl; intuition discriminate.
Qed.

(** A number at or above zero is a zero of either sign or is positive. *)
Lemma gte_zero_inv (x : BigNumber) :
  gte x zero = true -> isNaN x = false /\ (isZero x = true \/ sign x = false).
Proof.
  destruct x as [ | s | s c e]; unfold gte, compare; simpl.
  - discriminate.
  - destruct s; simpl; intuition discriminate.
  - destruct (c =? 0)%N; simpl; [intuition | ].
    destruct s; simpl; intuition discriminate.
Qed.

(** [normalise] keeps the sign it is given and never yields NaN. *)
Lemma normalise_cases (s : bool) (c : N) (e : Z) :
  normalise s c e = Infinity s \/
  exists c' e', normalise s c e = Finite s c' e'.
Proof.
  unfold normalise. destruct (c =? 0)%N; [right; eauto | ].
  destruct (stripZeros _ c e) as [c' e'].
  destruct (MAX_EXP <? _); [left; reflexivity | ].
  destruct (_ <? MIN_EXP); right; eauto.
Qed.

(** The product of a negative number and a non-negative one is NaN, a
    zero or negative. *)
Lemma times_neg_nonneg (a p : BigNumber) :
  lt a zero = true -> gte p zero = true ->
  isNaN (times a p) = true \/ isZero (times a p) = true \/
  sign (times a p) = true.
Proof.
  intros Ha Hp.
  apply lt_zero_inv in Ha. destruct Ha as (Hs & Hz & Hn).
  apply gte_zero_inv in Hp. destruct Hp as (Hpn & Hp).
  destruct a as [ | sa | sa ca ea]; simpl in *; try discriminate; subst sa;
    destruct p as [ | sp | sp cp ep]; simpl in *; try discriminate.
  - destruct Hp as [Hp | Hp]; [discriminate | subst sp]. auto.
  - destruct (cp =? 0)%N; [auto | ].
    destruct Hp as [Hp | Hp]; [discriminate | subst sp]. auto.
  - rewrite Hz. destruct Hp as [Hp | Hp]; [discriminate | subst sp]. auto.
  - rewrite Hz. simpl. destruct (cp =? 0)%N; simpl; [auto | ].
    destruct Hp as [Hp | Hp]; [discriminate | subst sp]. simpl.
    destruct (normalise_cases true (ca * cp) (ea + ep)) as [E | (c' & e' & E)];
      rewrite E; simpl; auto.
Qed.

(** Such a product exceeds no non-negative bound. *)
Lemma nonpos_not_gt (r m : BigNumber) :
  isNaN r = true \/ isZero r = true \/ sign r = true ->
  gte m zero = true -> gt r m = false.
Proof.
  intros Hr Hm. apply gte_zero_inv in Hm. destruct Hm as (Hmn & Hm).
  unfold gt, compare.
  destruct r as [ | sr | sr cr er]; [reflexivity | | ];
    destruct m as [ | sm | sm cm em]; simpl in *; try discriminate;
    repeat match goal with
           | H : _ \/ _ |- _ => destruct H
           | H : false = true |- _ => discriminate H
           | H : ?b = true |- _ => is_var b; subst b
           | H : ?b = false |- _ => is_var b; subst b
           end; simpl; try reflexivity;
    repeat match goal with
           | H : (?c =? 0)%N = _ |- _ => rewrite H; simpl
           end; try reflexivity.
  all: try (destruct (cm =? 0)%N; simpl; try reflexivity).
  all: try (destruct (cr =? 0)%N; simpl; try reflexivity).
  all: try (destruct sm; simpl; reflexivity).
  all: try (destruct sr; simpl; reflexivity).
Qed.

(** A non-negative number is not below a negative one. *)
Lemma nonneg_not_lt_neg (b a : BigNumber) :
  gte b zero = true -> lt a zero = true -> lt b a = false.
Proof.
  intros Hb Ha.
  apply gte_zero_inv in Hb. destruct Hb as (Hbn & Hb).
  apply lt_zero_inv in Ha. destruct Ha as (Hs & Hz & Hn).
  unfold lt, compare.
  destruct b as [ | sb | sb cb eb]; [discriminate | | ];
    destruct a as [ | sa | sa ca ea]; simpl in *; try discriminate; subst sa.
  - destruct Hb as [Hb | Hb]; [discriminate | subst sb]. reflexivity.
  - rewrite Hz. destruct Hb as [Hb | Hb]; [discriminate | subst sb].
    reflexivity.
  - destruct (cb =? 0)%N; simpl; [reflexivity | ].
    destruct Hb as [Hb | Hb]; [discriminate | subst sb]. reflexivity.
  - rewrite Hz. destruct (cb =? 0)%N; simpl; [reflexivity | ].
    destruct Hb as [Hb | Hb]; [discriminate | subst sb]. reflexivity.
Qed.

Lemma gt_NaN_l (y : BigNumber) : gt NaN y = false.
Proof. reflexivity. Qed.

Lemma lt_NaN_r (x : BigNumber) : lt x NaN = false.
Proof. destruct x; reflexivity. Qed.

Lemma gt_zero_not_isZero (x : BigNumber) :
  gt x zero = true -> isZero x = false.
Proof.
  destruct x as [ | s | s c e]; unfold gt, compare; simpl; try easy.
  destruct (c =? 0)%N; simpl; easy.
Qed.

End ComparisonFacts.

(* ================================================================== *)
(** ** Facts about the runtime dates                                    *)
(* ================================================================== *)

Section DateFacts.

Context {H : Host}.

Lemma MonthFromTime_range (tv : Z) : 0 <= MonthFromTime tv <= 11.
Proof.
  unfold MonthFromTime.
  repeat match goal with
         | |- context [if ?b then _ else _] => destruct b
         end; lia.
Qed.

(** The day after the day of [tv], built from the year and month of
    [tv], is the next day number. *)
Lemma MakeDay_next (tv : Z) :
  MakeDay (YearFromTime tv) (MonthFromTime tv) (DateFromTime tv + 1)
  = Day tv + 1.
Proof.
  pose proof (MonthFromTime_range tv) as Hm.
  unfold MakeDay.
  rewrite (Z.div_small (MonthFromTime tv) 12) by lia.
  rewrite (Z.mod_small (MonthFromTime tv) 12) by lia.
  rewrite Z.add_0_r.
  unfold firstDayOfMonth, DateFromTime, DayWithinYear, InLeapYear.
  destruct (DaysInYear (YearFromTime tv) =? 366);
    destruct (MonthFromTime tv) as [ | m | m ]; try lia;
    repeat (destruct m as [m | m | ]; try lia).
Qed.

Lemma MakeDate_next (tv : Z) :
  MakeDate (Day tv + 1) (TimeWithinDay tv) = tv + msPerDay.
Proof.
  unfold MakeDate, Day, TimeWithinDay.
  pose proof (Z.div_mod tv msPerDay) as E.
  assert (msPerDay <> 0) as Hne by (unfold msPerDay; lia).
  specialize (E Hne). lia.
Qed.

(** [date.setDate(date.getDate() + 1)] moves a date to the next local
    day. *)
Lemma setDate_getDate_next (date : JSDate) :
  setDate date (option_map (fun d => d + 1) (getDate date))
  = nextLocalDay date.
Proof.
  destruct date as [tv | ]; simpl; [ | reflexivity].
  rewrite MakeDay_next, MakeDate_next. reflexivity.
Qed.

End DateFacts.

(* ================================================================== *)
(** ** The library and the runtime on examples                         *)
(* ================================================================== *)

Example ofString_decimal :
  ofString (fun _ => NaN) "1.50e-2" = Finite false 15 (-3).
Proof. reflexivity. Qed.

Example ofString_blanks_and_plus :
  ofString (fun _ => NaN) " +5 " = Finite false 5 0.
Proof. reflexivity. Qed.

Example ofString_not_a_number :
  ofString (fun _ => NaN) "12abc" = NaN /\ ofString (fun _ => NaN) "" = NaN.
Proof. split; reflexivity. Qed.

Example ofString_infinity :
  ofString (fun _ => NaN) "-Infinity" = Infinity true.
Proof. reflexivity. Qed.

Example dividedBy_rounds_half_up :
  dividedBy (ofZ 2) (ofZ 3) = Finite false 66666666666666666667 (-20).
Proof. reflexivity. Qed.

Example dividedBy_zero_divisor :
  dividedBy (ofZ 5) zero = Infinity false /\ dividedBy zero zero = NaN.
Proof. split; reflexivity. Qed.

Example minus_exact :
  minus (ofZ 1000) (ofZ 980) = ofZ 20.
Proof. reflexivity. Qed.

(** 29 February 2000, and the last millisecond of 1969. *)
Example calendar_leap_day :
  (YearFromTime 951782400000, MonthFromTime 951782400000,
   DateFromTime 951782400000) = (2000, 1, 29)
  /\ (YearFromTime (-1), MonthFromTime (-1), DateFromTime (-1))
     = (1969, 11, 31).
Proof. split; reflexivity. Qed.

(** 31 January 2024 moved one day ahead is 1 February 2024. *)
Example setDate_end_of_month :
  getDate (H := utcHost) (Some 1706659200000) = Some 31
  /\ setDate (H := utcHost) (Some 1706659200000) (Some 32)
     = Some 1706745600000.
Proof. split; reflexivity. Qed.

(* ================================================================== *)
(** ** The validators                                                  *)
(* ================================================================== *)

Section ValidatorFacts.

Context {H : Host}.

(** The validator adds, in this order and each on its own condition, the
    single-transaction issue, the daily issue and the balance issue. *)
Lemma validateAmountMantissa_issues (i : Inputs) (v : string)
  (ctx : RefinementCtx) :
  validateAmountMantissa i v ctx =
  (ctx
   ++ (if gt (xvsAmountUsd i v) (maxSingleTransactionLimitUsd i)
       then [singleTransactionLimitExceededIssue i] else [])
   ++ (if gt (xvsAmountUsd i v) (remainingXvsDailyLimitUsd i)
       then [dailyTransactionLimitExceededIssue i] else [])
   ++ (if lt (walletBalanceTokens i) (xvsAmountTokens v)
       then [doesNotHaveEnoughXvsIssue i] else []))%list.
Proof.
  unfold validateAmountMantissa, xvsAmountUsd, xvsAmountTokens, addIssue,
    singleTransactionLimitExceededIssue, dailyTransactionLimitExceededIssue,
    doesNotHaveEnoughXvsIssue.
  rewrite setDate_getDate_next.
  destruct (gt _ (maxSingleTransactionLimitUsd i));
    destruct (gt _ (remainingXvsDailyLimitUsd i));
    destruct (lt (walletBalanceTokens i) _);
    repeat rewrite <- app_assoc; simpl; repeat rewrite app_nil_r; reflexivity.
Qed.

Lemma reports_issues (i : Inputs) (p : string) (a b c : bool) :
  reports p
    ((if a then [singleTransactionLimitExceededIssue i] else [])
     ++ (if b then [dailyTransactionLimitExceededIssue i] else [])
     ++ (if c then [doesNotHaveEnoughXvsIssue i] else []))%list
  = (a && String.eqb p "singleTransactionLimitExceeded")
    || (b && String.eqb p "dailyTransactionLimitExceeded")
    || (c && String.eqb p "doesNotHaveEnoughXvs").
Proof.
  destruct a, b, c; simpl;
    destruct (String.eqb p "singleTransactionLimitExceeded");
    destruct (String.eqb p "dailyTransactionLimitExceeded");
    destruct (String.eqb p "doesNotHaveEnoughXvs"); reflexivity.
Qed.

Lemma reports_validateAmountMantissa (i : Inputs) (v p : string) :
  reports p (validateAmountMantissa i v []) =
  (gt (xvsAmountUsd i v) (maxSingleTransactionLimitUsd i)
   && String.eqb p "singleTransactionLimitExceeded")
  || (gt (xvsAmountUsd i v) (remainingXvsDailyLimitUsd i)
      && String.eqb p "dailyTransactionLimitExceeded")
  || (lt (walletBalanceTokens i) (xvsAmountTokens v)
      && String.eqb p "doesNotHaveEnoughXvs").
Proof.
  rewrite validateAmountMantissa_issues. simpl. apply reports_issues.
Qed.

(** C1. An amount whose USD value is at most the single-transaction
    limit and at most the remaining daily capacity, and which is at most
    the wallet balance, gets no violation. *)
Theorem amount_within_limits_is_valid (i : Inputs) (v : string) :
  lte (xvsAmountUsd i v) (maxSingleTransactionLimitUsd i) = true ->
  lte (xvsAmountUsd i v) (remainingXvsDailyLimitUsd i) = true ->
  lte (xvsAmountTokens v) (walletBalanceTokens i) = true ->
  validateAmountMantissa i v [] = [].
Proof.
  intros Hs Hd Hb. rewrite validateAmountMantissa_issues.
  rewrite (lte_gt_false _ _ Hs), (lte_gt_false _ _ Hd).
  rewrite (lte_lt_false _ _ Hb). reflexivity.
Qed.

(** C2. A single-transaction violation is reported exactly when the USD
    value of the amount exceeds the single-transaction limit; with balance
    100, amount 50, price $30 and limit $1000 the value is $1500 and the
    violation is reported. *)
Theorem single_limit_reported_iff (i : Inputs) :
  (forall v,
      reports "singleTransactionLimitExceeded" (validateAmountMantissa i v [])
      = true
      <-> gt (xvsAmountUsd i v) (maxSingleTransactionLimitUsd i) = true)
  /\ (walletBalanceTokens i = ofZ 100 ->
      xvsPriceUsd i = ofZ 30 ->
      maxSingleTransactionLimitUsd i = ofZ 1000 ->
      xvsAmountUsd i "50" = ofZ 1500
      /\ reports "singleTransactionLimitExceeded"
                 (validateAmountMantissa i "50" []) = true).
Proof.
  split.
  - intro v. rewrite reports_validateAmountMantissa. simpl.
    rewrite !andb_true_r, !andb_false_r, !orb_false_r. reflexivity.
  - intros _ Hp Hm.
    assert (xvsAmountUsd i "50" = ofZ 1500) as E
        by (unfold xvsAmountUsd; rewrite Hp; reflexivity).
    split; [exact E | ].
    rewrite reports_validateAmountMantissa, E, Hm. reflexivity.
Qed.

(** C3. A daily violation is reported exactly when the USD value of the
    amount exceeds the remaining daily capacity, which is the daily limit
    minus the total transferred in the last 24 hours; with balance 100,
    amount 50, price $1, daily limit $1000 and $980 used, $20 remain and
    the violation is reported. *)
Theorem daily_limit_reported_iff (i : Inputs) :
  (forall v,
      reports "dailyTransactionLimitExceeded" (validateAmountMantissa i v [])
      = true
      <-> gt (xvsAmountUsd i v) (remainingXvsDailyLimitUsd i) = true)
  /\ (forall data,
         getXvsBridgeStatusData i = Some data ->
         remainingXvsDailyLimitUsd i
         = minus (Status.maxDailyLimitUsd data)
                 (Status.totalTransferredLast24HourUsd data))
  /\ (forall data,
         getXvsBridgeStatusData i = Some data ->
         walletBalanceTokens i = ofZ 100 ->
         xvsPriceUsd i = ofZ 1 ->
         Status.maxDailyLimitUsd data = ofZ 1000 ->
         Status.totalTransferredLast24HourUsd data = ofZ 980 ->
         remainingXvsDailyLimitUsd i = ofZ 20
         /\ reports "dailyTransactionLimitExceeded"
                    (validateAmountMantissa i "50" []) = true).
Proof.
  assert (forall data, getXvsBridgeStatusData i = Some data ->
            remainingXvsDailyLimitUsd i
            = minus (Status.maxDailyLimitUsd data)
                    (Status.totalTransferredLast24HourUsd data)) as Hrem.
  { intros data Hd. unfold remainingXvsDailyLimitUsd, remainingXvsDailyLimit.
    rewrite Hd. reflexivity. }
  split; [ | split; [exact Hrem | ]].
  - intro v. rewrite reports_validateAmountMantissa. simpl.
    rewrite !andb_true_r, !andb_false_r, !orb_false_r. reflexivity.
  - intros data Hd _ Hp Hmax Hused.
    assert (remainingXvsDailyLimitUsd i = ofZ 20) as E
        by (rewrite (Hrem data Hd), Hmax, Hused; reflexivity).
    split; [exact E | ].
    rewrite reports_validateAmountMantissa, E.
    unfold xvsAmountUsd. rewrite Hp. simpl.
    rewrite !andb_false_r, !orb_false_r. reflexivity.
Qed.

(** C4. An insufficient-balance violation is reported exactly when the
    wallet balance is below the amount; with balance 10 and amount 50,
    the two limits being respected, it is the only violation. *)
Theorem insufficient_balance_reported_iff (i : Inputs) :
  (forall v,
      reports "doesNotHaveEnoughXvs" (validateAmountMantissa i v []) = true
      <-> lt (walletBalanceTokens i) (xvsAmountTokens v) = true)
  /\ (walletBalanceTokens i = ofZ 10 ->
      lte (xvsAmountUsd i "50") (maxSingleTransactionLimitUsd i) = true ->
      lte (xvsAmountUsd i "50") (remainingXvsDailyLimitUsd i) = true ->
      validateAmountMantissa i "50" [] = [doesNotHaveEnoughXvsIssue i]).
Proof.
  split.
  - intro v. rewrite reports_validateAmountMantissa. simpl.
    rewrite !andb_true_r, !andb_false_r. reflexivity.
  - intros Hb Hs Hd. rewrite validateAmountMantissa_issues.
    rewrite (lte_gt_false _ _ Hs), (lte_gt_false _ _ Hd), Hb. reflexivity.
Qed.

(** C5. The three checks do not short-circuit one another: the result is
    the single-transaction issue if its condition holds, then the daily
    issue if its condition holds, then the balance issue if its condition
    holds. With balance 10, amount 5000, price $1 and single limit $100
    the insufficient-balance and the single-transaction violations are
    reported together, and they are the whole result when the daily limit
    is infinite. *)
Theorem violations_reported_together (i : Inputs) :
  (forall v,
      validateAmountMantissa i v [] =
      (if gt (xvsAmountUsd i v) (maxSingleTransactionLimitUsd i)
       then [singleTransactionLimitExceededIssue i] else [])
      ++ (if gt (xvsAmountUsd i v) (remainingXvsDailyLimitUsd i)
          then [dailyTransactionLimitExceededIssue i] else [])
      ++ (if lt (walletBalanceTokens i) (xvsAmountTokens v)
          then [doesNotHaveEnoughXvsIssue i] else []))%list
  /\ (walletBalanceTokens i = ofZ 10 ->
      xvsPriceUsd i = ofZ 1 ->
      maxSingleTransactionLimitUsd i = ofZ 100 ->
      (reports "doesNotHaveEnoughXvs" (validateAmountMantissa i "5000" [])
       = true
       /\ reports "singleTransactionLimitExceeded"
                  (validateAmountMantissa i "5000" []) = true)
      /\ (forall data,
             getXvsBridgeStatusData i = Some data ->
             Status.maxDailyLimitUsd data = Infinity false ->
             Status.totalTransferredLast24HourUsd data = ofZ 0 ->
             validateAmountMantissa i "5000" [] =
             [singleTransactionLimitExceededIssue i;
              doesNotHaveEnoughXvsIssue i])).
Proof.
  split.
  - intro v. apply (validateAmountMantissa_issues i v []).
  - intros Hb Hp Hm.
    assert (xvsAmountUsd i "5000" = ofZ 5000) as E
        by (unfold xvsAmountUsd; rewrite Hp; reflexivity).
    split; [split | ].
    + rewrite reports_validateAmountMantissa, Hb. simpl.
      rewrite !andb_false_r. reflexivity.
    + rewrite reports_validateAmountMantissa, E, Hm. reflexivity.
    + intros data Hd Hmax Hused.
      rewrite validateAmountMantissa_issues, E, Hm, Hb.
      unfold remainingXvsDailyLimitUsd, remainingXvsDailyLimit.
      rewrite Hd, Hmax, Hused. reflexivity.
Qed.

(** C9. A negative amount gets no violation when the wallet balance, the
    price, the single-transaction limit and the remaining daily capacity
    are all at least zero. *)
Theorem negative_amount_is_valid (i : Inputs) (v : string) :
  lt (xvsAmountTokens v) zero = true ->
  gte (walletBalanceTokens i) zero = true ->
  gte (xvsPriceUsd i) zero = true ->
  gte (maxSingleTransactionLimitUsd i) zero = true ->
  gte (remainingXvsDailyLimitUsd i) zero = true ->
  validateAmountMantissa i v [] = [].
Proof.
  intros Ha Hb Hp Hs Hd. rewrite validateAmountMantissa_issues.
  pose proof (times_neg_nonneg _ _ Ha Hp) as Hu.
  unfold xvsAmountUsd.
  rewrite (nonpos_not_gt _ _ Hu Hs), (nonpos_not_gt _ _ Hu Hd).
  rewrite (nonneg_not_lt_neg _ _ Hb Ha). reflexivity.
Qed.

(** C10. The bridge-fee check passes every value that is not a
    BigNumber, a missing estimate among them; a BigNumber fee passes
    exactly when it is above zero and at most the balance of the native
    token. *)
Theorem validateBridgeFeeMantissa_spec (i : Inputs) :
  (forall value, isBigNumber value = false ->
                 validateBridgeFeeMantissa i value = true)
  /\ validateBridgeFeeMantissa i UUndefined = true
  /\ (forall fee,
         validateBridgeFeeMantissa i (UBigNumber fee) = true
         <-> gt fee zero = true
             /\ lte fee (nativeTokenBalanceMantissa i) = true).
Proof.
  split; [ | split].
  - intros [fee | | d] Hv; [discriminate Hv | reflexivity | reflexivity].
  - reflexivity.
  - intro fee. simpl. apply andb_true_iff.
Qed.

(** C6, amended. While the bridge status is loaded, the remaining daily
    capacity in tokens is the remaining capacity in USD divided by the
    price whenever the price is not zero, a price above zero included; it
    is zero when the price is zero, so that no division by a zero price
    takes place; while the status is not loaded both remaining
    capacities are zero. *)
Theorem remaining_daily_tokens_spec (i : Inputs) :
  (forall data,
      getXvsBridgeStatusData i = Some data ->
      isZero (xvsPriceUsd i) = false ->
      remainingXvsDailyLimitTokens i
      = dividedBy (remainingXvsDailyLimitUsd i) (xvsPriceUsd i))
  /\ (forall data,
         getXvsBridgeStatusData i = Some data ->
         gt (xvsPriceUsd i) zero = true ->
         remainingXvsDailyLimitTokens i
         = dividedBy (remainingXvsDailyLimitUsd i) (xvsPriceUsd i))
  /\ (isZero (xvsPriceUsd i) = true -> remainingXvsDailyLimitTokens i = zero)
  /\ (getXvsBridgeStatusData i = None ->
      remainingXvsDailyLimitUsd i = zero
      /\ remainingXvsDailyLimitTokens i = zero).
Proof.
  assert (forall data,
             getXvsBridgeStatusData i = Some data ->
             isZero (xvsPriceUsd i) = false ->
             remainingXvsDailyLimitTokens i
             = dividedBy (remainingXvsDailyLimitUsd i) (xvsPriceUsd i)) as Hdiv.
  { intros data Hd Hz.
    unfold remainingXvsDailyLimitTokens, remainingXvsDailyLimitUsd,
      remainingXvsDailyLimit.
    rewrite Hd, Hz. reflexivity. }
  split; [exact Hdiv | split; [ | split]].
  - intros data Hd Hp. apply (Hdiv data Hd). apply gt_zero_not_isZero, Hp.
  - intro Hz. unfold remainingXvsDailyLimitTokens, remainingXvsDailyLimit.
    destruct (getXvsBridgeStatusData i); [rewrite Hz | ]; reflexivity.
  - intro Hnone.
    unfold remainingXvsDailyLimitTokens, remainingXvsDailyLimitUsd,
      remainingXvsDailyLimit.
    rewrite Hnone. split; reflexivity.
Qed.

(** C7, amended. The schema rejects the empty string by its presence
    check, the only check before the validator; every other string is
    handed to the validator as it is. A string that does not read as a
    number is the amount NaN there and gets no violation. *)
Theorem amountTokensSchema_spec (i : Inputs) (v : string) :
  (v = "" -> amountTokensSchema i v = [TooSmall 1])
  /\ (v <> "" -> amountTokensSchema i v = validateAmountMantissa i v [])
  /\ (xvsAmountTokens v = NaN -> validateAmountMantissa i v [] = []).
Proof.
  assert (forall ctx, xvsAmountTokens v = NaN ->
                      validateAmountMantissa i v ctx = ctx) as Hnan.
  { intros ctx E. rewrite validateAmountMantissa_issues.
    unfold xvsAmountUsd. rewrite E. simpl times.
    rewrite !gt_NaN_l, lt_NaN_r. simpl. apply app_nil_r. }
  split; [ | split].
  - intros ->. unfold amountTokensSchema. simpl. apply Hnan. reflexivity.
  - intro Hv. unfold amountTokensSchema.
    destruct v as [ | ch r]; [contradiction Hv; reflexivity | ].
    replace (Z.of_nat (String.length (String ch r)) <? 1) with false;
      [reflexivity | ].
    symmetry. apply Z.ltb_ge. simpl String.length. lia.
  - apply Hnan.
Qed.

(** C8. Every reported violation is one of the three. A reported
    single-transaction violation carries the single-transaction limit in
    tokens and in USD, both formatted; a reported daily violation carries
    the remaining daily capacity in tokens and in USD, both formatted,
    and additionally the date of the reset timestamp plus one day. The
    balance violation, which has no limit, carries the symbol of the
    token. *)
Theorem reported_violation_payload (i : Inputs) (v : string)
  (issue : ZodIssue) :
  In issue (validateAmountMantissa i v []) ->
  (hasPath "singleTransactionLimitExceeded" issue = true ->
   messageOf issue =
   Some (t "bridgePage.errors.singleTransactionLimitExceeded.message"
           [("readableAmountTokens",
             ArgString
               (formatTokensToReadableValue
                  (dividedBy (maxSingleTransactionLimitUsd i) (xvsPriceUsd i))
                  (xvs i)));
            ("readableAmountUsd",
             ArgString
               (formatCentsToReadableValue
                  (convertDollarsToCents (maxSingleTransactionLimitUsd i))))]))
  /\ (hasPath "dailyTransactionLimitExceeded" issue = true ->
      messageOf issue =
      Some (t "bridgePage.errors.dailyTransactionLimitExceeded.message"
              [("readableAmountTokens",
                ArgString
                  (formatTokensToReadableValue
                     (remainingXvsDailyLimitTokens i) (xvs i)));
               ("readableAmountUsd",
                ArgString
                  (formatCentsToReadableValue
                     (convertDollarsToCents (remainingXvsDailyLimitUsd i))));
               ("date",
                ArgDate
                  (nextLocalDay
                     (fromUnixTime
                        (toNumber (dailyLimitResetTimestamp i)))))]))
  /\ (hasPath "doesNotHaveEnoughXvs" issue = true ->
      messageOf issue =
      Some (t "bridgePage.errors.doesNotHaveEnoughXvs"
              [("tokenSymbol",
                match xvs i with
                | Some token => ArgString (symbol token)
                | None => ArgUndefined
                end)]))
  /\ (hasPath "singleTransactionLimitExceeded" issue
      || hasPath "dailyTransactionLimitExceeded" issue
      || hasPath "doesNotHaveEnoughXvs" issue = true)
  /\ carriesLimitAmounts issue = negb (hasPath "doesNotHaveEnoughXvs" issue).
Proof.
  rewrite validateAmountMantissa_issues. simpl app. intro Hin.
  assert (issue = singleTransactionLimitExceededIssue i
          \/ issue = dailyTransactionLimitExceededIssue i
          \/ issue = doesNotHaveEnoughXvsIssue i) as Hcase.
  { repeat (apply in_app_or in Hin; destruct Hin as [Hin | Hin]);
      repeat match type of Hin with
             | In _ (if ?b then _ else _) => destruct b
             end;
      simpl in Hin; intuition. }
  destruct Hcase as [-> | [-> | ->]]; simpl;
    repeat split; intros; try discriminate; reflexivity.
Qed.

(** In a zone at a fixed offset from UTC the date of a whole number of
    seconds [z], moved one day ahead, is the instant 86400 seconds after
    [z]. *)
Lemma reset_date_fixed_offset (offset z : Z) :
  (forall tv, LocalTime tv = tv + offset) ->
  (forall tv, UTC tv = tv - offset) ->
  Z.abs (z * 1000) <= 8640000000000000 - msPerDay ->
  nextLocalDay (fromUnixTime (NumInt z)) = Some ((z + 86400) * 1000).
Proof.
  intros Hl Hu Hz. unfold fromUnixTime, TimeClip, msPerDay in *.
  replace (Z.abs (z * 1000) <=? 8640000000000000) with true
    by (symmetry; apply Z.leb_le; lia).
  unfold nextLocalDay, TimeClip, msPerDay. rewrite Hl, Hu.
  replace (Z.abs (z * 1000 + offset + 86400000 - offset)
           <=? 8640000000000000) with true
    by (symmetry; apply Z.leb_le; lia).
  f_equal. lia.
Qed.

End ValidatorFacts.

(* ================================================================== *)
(** ** The scenarios, run                                              *)
(* ================================================================== *)

(** Balance 100, amount 50, price $1, limits of $1000, nothing used: the
    amount is valid. *)
Lemma amount_within_limits_is_valid_witness :
  lte (xvsAmountUsd exValid "50") (maxSingleTransactionLimitUsd exValid) = true
  /\ lte (xvsAmountUsd exValid "50") (remainingXvsDailyLimitUsd exValid) = true
  /\ lte (xvsAmountTokens (H := utcHost) "50") (walletBalanceTokens exValid)
     = true
  /\ validateAmountMantissa exValid "50" [] = [].
Proof.
  do 3 (split; [reflexivity | ]).
  apply (amount_within_limits_is_valid exValid "50"); reflexivity.
Defined.

Lemma single_limit_reported_iff_witness :
  walletBalanceTokens exSingle = ofZ 100
  /\ xvsPriceUsd exSingle = ofZ 30
  /\ maxSingleTransactionLimitUsd exSingle = ofZ 1000
  /\ xvsAmountUsd exSingle "50" = ofZ 1500
  /\ reports "singleTransactionLimitExceeded"
             (validateAmountMantissa exSingle "50" []) = true.
Proof.
  do 3 (split; [reflexivity | ]).
  apply (proj2 (single_limit_reported_iff exSingle)); reflexivity.
Defined.

Lemma daily_limit_reported_iff_witness :
  getXvsBridgeStatusData exDaily
  = Some (exampleStatus (ofZ 1000) (ofZ 1000) (ofZ 980) (ofZ 1700000000))
  /\ walletBalanceTokens exDaily = ofZ 100
  /\ xvsPriceUsd exDaily = ofZ 1
  /\ remainingXvsDailyLimitUsd exDaily = ofZ 20
  /\ reports "dailyTransactionLimitExceeded"
             (validateAmountMantissa exDaily "50" []) = true.
Proof.
  do 3 (split; [reflexivity | ]).
  apply (proj2 (proj2 (daily_limit_reported_iff exDaily))
           (exampleStatus (ofZ 1000) (ofZ 1000) (ofZ 980) (ofZ 1700000000)));
    reflexivity.
Defined.

Lemma insufficient_balance_reported_iff_witness :
  walletBalanceTokens exBalance = ofZ 10
  /\ lte (xvsAmountUsd exBalance "50") (maxSingleTransactionLimitUsd exBalance)
     = true
  /\ lte (xvsAmountUsd exBalance "50") (remainingXvsDailyLimitUsd exBalance)
     = true
  /\ validateAmountMantissa exBalance "50" []
     = [doesNotHaveEnoughXvsIssue exBalance].
Proof.
  do 3 (split; [reflexivity | ]).
  apply (proj2 (insufficient_balance_reported_iff exBalance)); reflexivity.
Defined.

Lemma violations_reported_together_witness :
  walletBalanceTokens exBoth = ofZ 10
  /\ xvsPriceUsd exBoth = ofZ 1
  /\ maxSingleTransactionLimitUsd exBoth = ofZ 100
  /\ validateAmountMantissa exBoth "5000" []
     = [singleTransactionLimitExceededIssue exBoth;
        doesNotHaveEnoughXvsIssue exBoth].
Proof.
  do 3 (split; [reflexivity | ]).
  apply (proj2 (proj2 (violations_reported_together exBoth)
                  eq_refl eq_refl eq_refl)
           (exampleStatus (ofZ 100) (Infinity false) (ofZ 0)
                          (ofZ 1700000000)));
    reflexivity.
Defined.

(** A price of $-1 is not above zero, yet the remaining capacity in
    tokens is the quotient, -20, and not zero. *)
Lemma remaining_tokens_negative_price :
  gt (xvsPriceUsd exNegativePrice) zero = false
  /\ remainingXvsDailyLimitUsd exNegativePrice = ofZ 20
  /\ remainingXvsDailyLimitTokens exNegativePrice = ofZ (-20)
  /\ remainingXvsDailyLimitTokens exNegativePrice
     <> (if gt (xvsPriceUsd exNegativePrice) zero
         then dividedBy (remainingXvsDailyLimitUsd exNegativePrice)
                        (xvsPriceUsd exNegativePrice)
         else zero).
Proof.
  do 3 (split; [reflexivity | ]). cbv. discriminate.
Defined.

Lemma remaining_daily_tokens_spec_witness :
  isZero (xvsPriceUsd exNegativePrice) = false
  /\ remainingXvsDailyLimitTokens exNegativePrice
     = dividedBy (remainingXvsDailyLimitUsd exNegativePrice)
                 (xvsPriceUsd exNegativePrice)
  /\ isZero (xvsPriceUsd (ex 100 0 1000 1000 980)) = true
  /\ remainingXvsDailyLimitTokens (ex 100 0 1000 1000 980) = zero.
Proof.
  split; [reflexivity | split; [ | split; [reflexivity | ]]].
  - apply (proj1 (remaining_daily_tokens_spec exNegativePrice)
             (exampleStatus (ofZ 1000) (ofZ 1000) (ofZ 980)
                            (ofZ 1700000000)));
      reflexivity.
  - apply (proj1 (proj2 (proj2 (remaining_daily_tokens_spec
                                  (ex 100 0 1000 1000 980)))));
      reflexivity.
Defined.

(** The string abc is not empty and does not read as a number; the
    schema raises no issue on it. *)
Lemma non_numeric_amount_accepted :
  xvsAmountTokens (H := utcHost) "abc" = NaN
  /\ ofDecimalString "abc" = None
  /\ amountTokensSchema exValid "abc" = [].
Proof.
  repeat split; reflexivity.
Defined.

Lemma amountTokensSchema_spec_witness :
  amountTokensSchema exValid "" = [TooSmall 1]
  /\ amountTokensSchema exValid "abc" = validateAmountMantissa exValid "abc" []
  /\ validateAmountMantissa exValid "abc" [] = [].
Proof.
  split; [ | split].
  - apply (proj1 (amountTokensSchema_spec exValid "")). reflexivity.
  - apply (proj1 (proj2 (amountTokensSchema_spec exValid "abc"))).
    discriminate.
  - apply (proj2 (proj2 (amountTokensSchema_spec exValid "abc"))).
    reflexivity.
Defined.

(** With balance 10 and amount 50 the reported violation is the balance
    one; its message is given the token symbol and no readable amount. *)
Lemma balance_violation_without_amounts :
  validateAmountMantissa exBalance "50" []
  = [Custom (t "bridgePage.errors.doesNotHaveEnoughXvs"
               [("tokenSymbol", ArgString "XVS")])
            ["doesNotHaveEnoughXvs"]]
  /\ forallb carriesLimitAmounts (validateAmountMantissa exBalance "50" [])
     = false.
Proof.
  split; reflexivity.
Defined.

(** With $980 of $1000 used the daily violation carries the remaining
    $20 and the reset date one day after the timestamp 1700000000. *)
Lemma reported_violation_payload_witness :
  In (dailyTransactionLimitExceededIssue exDaily)
     (validateAmountMantissa exDaily "50" [])
  /\ messageOf (dailyTransactionLimitExceededIssue exDaily)
     = Some (t "bridgePage.errors.dailyTransactionLimitExceeded.message"
               [("readableAmountTokens", ArgString "tokens");
                ("readableAmountUsd", ArgString "cents");
                ("date", ArgDate (Some ((1700000000 + 86400) * 1000)))]).
Proof.
  split; [left; reflexivity | ].
  apply (proj1 (proj2 (reported_violation_payload exDaily "50"
                         (dailyTransactionLimitExceededIssue exDaily)
                         (or_introl eq_refl))));
    reflexivity.
Defined.

(** Amount -5 with balance 100, price $1 and limits of $1000. *)
Lemma negative_amount_is_valid_witness :
  lt (xvsAmountTokens (H := utcHost) "-5") zero = true
  /\ validateAmountMantissa exValid "-5" [] = [].
Proof.
  split; [reflexivity | ].
  apply (negative_amount_is_valid exValid "-5"); reflexivity.
Defined.

(** A fee of 5 against a native balance of 7; an undefined fee. *)
Lemma validateBridgeFeeMantissa_spec_witness :
  validateBridgeFeeMantissa exValid (UBigNumber (ofZ 5)) = true
  /\ validateBridgeFeeMantissa exValid (UOther "a string") = true.
Proof.
  split.
  - apply (proj2 (proj2 (validateBridgeFeeMantissa_spec exValid))).
    split; reflexivity.
  - apply (proj1 (validateBridgeFeeMantissa_spec exValid)). reflexivity.
Defined.

(* ================================================================== *)
(** ** The order of bignumber.js values                                *)
(* ================================================================== *)

Section Magnitudes.

Lemma pow10_pos (k : Z) : (0 < pow10 k)%N.
Proof.
  unfold pow10. apply N.neq_0_lt_0, N.pow_nonzero. discriminate.
Qed.

Lemma pow10_add (a b : Z) :
  0 <= a -> 0 <= b -> pow10 (a + b) = (pow10 a * pow10 b)%N.
Proof.
  intros Ha Hb. unfold pow10. rewrite Z2N.inj_add by assumption.
  apply N.pow_add_r.
Qed.

Lemma pow10_le (a b : Z) : 0 <= a -> a <= b -> (pow10 a <= pow10 b)%N.
Proof.
  intros Ha Hab. unfold pow10. apply N.pow_le_mono_r; [discriminate | ].
  apply Z2N.inj_le; lia.
Qed.

Lemma mul_compare_mono_r (a b k : N) :
  (0 < k)%N -> (a * k ?= b * k)%N = (a ?= b)%N.
Proof.
  intro Hk. destruct (N.compare_spec a b) as [E | L | G].
  - subst. apply N.compare_refl.
  - apply N.compare_lt_iff. apply N.mul_lt_mono_pos_r; assumption.
  - apply N.compare_gt_iff. apply N.mul_lt_mono_pos_r; assumption.
Qed.

(** A magnitude on a lower exponent. *)
Lemma scaled_shift (c : N) (e m m' : Z) :
  m' <= m -> m <= e -> scaled c e m' = (scaled c e m * pow10 (m - m'))%N.
Proof.
  intros H1 H2. unfold scaled.
  replace (e - m') with ((e - m) + (m - m')) by lia.
  rewrite pow10_add by lia. apply N.mul_assoc.
Qed.

(** Magnitudes compare as their coefficients on any common exponent. *)
Lemma cmpMag_scaled (m : Z) (c1 : N) (e1 : Z) (c2 : N) (e2 : Z) :
  m <= e1 -> m <= e2 ->
  cmpMag c1 e1 c2 e2 = (scaled c1 e1 m ?= scaled c2 e2 m)%N.
Proof.
  intros H1 H2. unfold cmpMag.
  rewrite (scaled_shift c1 e1 (Z.min e1 e2) m) by lia.
  rewrite (scaled_shift c2 e2 (Z.min e1 e2) m) by lia.
  rewrite mul_compare_mono_r by apply pow10_pos. reflexivity.
Qed.

Lemma cmpMag_lt_le_trans c1 e1 c2 e2 c3 e3 :
  cmpMag c1 e1 c2 e2 = Lt -> cmpMag c2 e2 c3 e3 <> Gt ->
  cmpMag c1 e1 c3 e3 = Lt.
Proof.
  set (m := Z.min e1 (Z.min e2 e3)).
  rewrite (cmpMag_scaled m c1 e1 c2 e2), (cmpMag_scaled m c2 e2 c3 e3),
    (cmpMag_scaled m c1 e1 c3 e3) by (unfold m; lia).
  rewrite !N.compare_lt_iff, N.compare_gt_iff. lia.
Qed.

Lemma cmpMag_le_lt_trans c1 e1 c2 e2 c3 e3 :
  cmpMag c1 e1 c2 e2 <> Gt -> cmpMag c2 e2 c3 e3 = Lt ->
  cmpMag c1 e1 c3 e3 = Lt.
Proof.
  set (m := Z.min e1 (Z.min e2 e3)).
  rewrite (cmpMag_scaled m c1 e1 c2 e2), (cmpMag_scaled m c2 e2 c3 e3),
    (cmpMag_scaled m c1 e1 c3 e3) by (unfold m; lia).
  rewrite !N.compare_lt_iff, N.compare_gt_iff. lia.
Qed.

(** A common non-zero factor does not change the comparison. *)
Lemma cmpMag_mul_r (c1 : N) (e1 : Z) (c2 : N) (e2 : Z) (c : N) (e : Z) :
  c <> 0%N ->
  cmpMag (c1 * c) (e1 + e) (c2 * c) (e2 + e) = cmpMag c1 e1 c2 e2.
Proof.
  intro Hc. unfold cmpMag.
  replace (Z.min (e1 + e) (e2 + e)) with (Z.min e1 e2 + e) by lia.
  replace (e1 + e - (Z.min e1 e2 + e)) with (e1 - Z.min e1 e2) by lia.
  replace (e2 + e - (Z.min e1 e2 + e)) with (e2 - Z.min e1 e2) by lia.
  replace (c1 * c * pow10 (e1 - Z.min e1 e2))%N
    with (c1 * pow10 (e1 - Z.min e1 e2) * c)%N by lia.
  replace (c2 * c * pow10 (e2 - Z.min e1 e2))%N
    with (c2 * pow10 (e2 - Z.min e1 e2) * c)%N by lia.
  apply mul_compare_mono_r. lia.
Qed.

(** [stripZeros] keeps the magnitude and a non-zero coefficient. *)
Lemma stripZeros_spec (fuel : nat) (c : N) (e : Z) :
  let '(c', e') := stripZeros fuel c e in
  e <= e' /\ c = (c' * pow10 (e' - e))%N /\ (c <> 0%N -> c' <> 0%N).
Proof.
  revert c e. induction fuel as [ | f IH]; intros c e; simpl.
  - replace (e - e) with 0 by lia. cbn. repeat split; try lia.
  - destruct ((c mod 10 =? 0)%N && negb (c =? 0)%N) eqn:Hz.
    + apply andb_true_iff in Hz. destruct Hz as [Hm Hc].
      apply N.eqb_eq in Hm. apply negb_true_iff, N.eqb_neq in Hc.
      specialize (IH (c / 10)%N (e + 1)).
      destruct (stripZeros f (c / 10) (e + 1)) as [c' e'].
      destruct IH as (He & Hv & Hn).
      assert (c = 10 * (c / 10))%N as Hc10.
      { pose proof (N.div_mod c 10) as D. lia. }
      split; [lia | split].
      * replace (e' - e) with ((e' - (e + 1)) + 1) by lia.
        rewrite pow10_add by lia. change (pow10 1) with 10%N.
        rewrite Hc10 at 1. rewrite Hv at 1. lia.
      * intros _. apply Hn. lia.
    + replace (e - e) with 0 by lia. cbn. repeat split; try lia.
Qed.

Lemma digitsFuel_spec (fuel : nat) (c : N) :
  (0 < c)%N -> (c < 2 ^ N.of_nat fuel)%N ->
  1 <= digitsFuel fuel c /\
  (pow10 (digitsFuel fuel c - 1) <= c < pow10 (digitsFuel fuel c))%N.
Proof.
  revert c. induction fuel as [ | f IH]; intros c Hpos Hlt.
  - simpl in Hlt. lia.
  - change (digitsFuel (S f) c)
      with (if (c <? 10)%N then 1 else 1 + digitsFuel f (c / 10)%N).
    destruct (c <? 10)%N eqn:H10.
    + apply N.ltb_lt in H10.
      change (pow10 (1 - 1)) with 1%N. change (pow10 1) with 10%N.
      clear IH Hlt. lia.
    + apply N.ltb_ge in H10.
      assert (c = 10 * (c / 10) + c mod 10)%N as D by apply N.div_mod'.
      assert (c mod 10 < 10)%N as M by (apply N.mod_lt; discriminate).
      rewrite Nat2N.inj_succ, N.pow_succ_r' in Hlt.
      specialize (IH (c / 10)%N).
      remember (c / 10)%N as q eqn:Eq. remember (c mod 10)%N as r eqn:Er.
      remember (2 ^ N.of_nat f)%N as P eqn:EP.
      clear Eq Er EP.
      destruct IH as (Hd & Hlo & Hhi); [lia | lia | ].
      remember (digitsFuel f q) as d eqn:Ed. clear Ed.
      split; [lia | ].
      replace (1 + d - 1) with ((d - 1) + 1) by lia.
      replace (1 + d) with (d + 1) by lia.
      rewrite !pow10_add by lia. change (pow10 1) with 10%N.
      remember (pow10 (d - 1)) as lo eqn:El. remember (pow10 d) as hi eqn:Eh.
      clear El Eh. lia.
Qed.

Lemma digits_spec (c : N) :
  c <> 0%N ->
  1 <= digits c /\ (pow10 (digits c - 1) <= c < pow10 (digits c))%N.
Proof.
  intro Hc. unfold digits. apply digitsFuel_spec; [lia | ].
  rewrite N2Nat.id. apply N.size_gt.
Qed.


Lemma cmpMag_strip_l (c c' : N) (e e' : Z) (x : N) (ex : Z) :
  e <= e' -> c = (c' * pow10 (e' - e))%N ->
  cmpMag c' e' x ex = cmpMag c e x ex.
Proof.
  intros He Hc.
  rewrite (cmpMag_scaled (Z.min e ex) c' e' x ex) by lia.
  rewrite (cmpMag_scaled (Z.min e ex) c e x ex) by lia.
  f_equal. rewrite (scaled_shift c' e' e (Z.min e ex)) by lia.
  unfold scaled at 2. rewrite Hc. unfold scaled. reflexivity.
Qed.

Lemma cmpMag_strip_r (c c' : N) (e e' : Z) (x : N) (ex : Z) :
  e <= e' -> c = (c' * pow10 (e' - e))%N ->
  cmpMag x ex c' e' = cmpMag x ex c e.
Proof.
  intros He Hc. rewrite (cmpMag_antisym c' e' x ex).
  rewrite (cmpMag_strip_l c c' e e' x ex He Hc).
  rewrite <- (cmpMag_antisym c e x ex). reflexivity.
Qed.

(** The exponent of the leading digit grows with the magnitude. *)
Lemma leading_exponent_mono (c1 : N) (e1 : Z) (c2 : N) (e2 : Z) :
  c1 <> 0%N -> c2 <> 0%N -> cmpMag c1 e1 c2 e2 <> Gt ->
  e1 + digits c1 <= e2 + digits c2.
Proof.
  intros H1 H2 Hle.
  destruct (digits_spec c1 H1) as (Hd1 & Hlo1 & _).
  destruct (digits_spec c2 H2) as (Hd2 & _ & Hhi2).
  rewrite (cmpMag_scaled (Z.min e1 e2)) in Hle by lia.
  rewrite N.compare_gt_iff in Hle. apply N.nlt_ge in Hle.
  destruct (Z_le_gt_dec (e1 + digits c1) (e2 + digits c2)) as [ | Hgt];
    [assumption | exfalso].
  set (m := Z.min e1 e2) in *.
  assert (pow10 (digits c1 - 1 + (e1 - m)) <= scaled c1 e1 m)%N as A.
  { rewrite pow10_add by lia. unfold scaled.
    apply N.mul_le_mono_r. exact Hlo1. }
  assert (scaled c2 e2 m < pow10 (digits c2 + (e2 - m)))%N as B.
  { rewrite pow10_add by lia. unfold scaled.
    apply N.mul_lt_mono_pos_r; [apply pow10_pos | exact Hhi2]. }
  assert (pow10 (digits c2 + (e2 - m))
          <= pow10 (digits c1 - 1 + (e1 - m)))%N as C
      by (apply pow10_le; lia).
  lia.
Qed.

(** What [normalise] returns on a non-zero coefficient. *)
Lemma normalise_nonzero (s : bool) (c : N) (e : Z) :
  c <> 0%N ->
  exists c' e',
    c' <> 0%N /\ e <= e' /\ c = (c' * pow10 (e' - e))%N /\
    normalise s c e =
    (if MAX_EXP <? e' + digits c' - 1 then Infinity s
     else if e' + digits c' - 1 <? MIN_EXP then Finite s 0 0
     else Finite s c' e').
Proof.
  intro Hc. unfold normalise.
  destruct (c =? 0)%N eqn:E; [apply N.eqb_eq in E; contradiction | ].
  pose proof (stripZeros_spec (N.to_nat (N.size c)) c e) as Hs.
  destruct (stripZeros (N.to_nat (N.size c)) c e) as [c' e'].
  destruct Hs as (He & Hv & Hn).
  exists c', e'. repeat split; auto.
Qed.

(** [normalise] is monotone on positive magnitudes. *)
Lemma normalise_mono (c1 : N) (e1 : Z) (c2 : N) (e2 : Z) :
  c1 <> 0%N -> c2 <> 0%N -> cmpMag c1 e1 c2 e2 <> Gt ->
  lte (normalise false c1 e1) (normalise false c2 e2) = true.
Proof.
  intros H1 H2 Hle.
  destruct (normalise_nonzero false c1 e1 H1)
    as (c1' & e1' & Hn1 & He1 & Hv1 & ->).
  destruct (normalise_nonzero false c2 e2 H2)
    as (c2' & e2' & Hn2 & He2 & Hv2 & ->).
  assert (cmpMag c1' e1' c2' e2' <> Gt) as Hle'.
  { rewrite (cmpMag_strip_l c1 c1' e1 e1') by assumption.
    rewrite (cmpMag_strip_r c2 c2' e2 e2') by assumption. exact Hle. }
  pose proof (leading_exponent_mono c1' e1' c2' e2' Hn1 Hn2 Hle') as Hsci.
  apply N.eqb_neq in Hn1, Hn2.
  destruct (MAX_EXP <? e1' + digits c1' - 1) eqn:M1;
    destruct (MAX_EXP <? e2' + digits c2' - 1) eqn:M2;
    try (apply Z.ltb_lt in M1); try (apply Z.ltb_ge in M1);
    try (apply Z.ltb_lt in M2); try (apply Z.ltb_ge in M2);
    try lia; try reflexivity;
    destruct (e1' + digits c1' - 1 <? MIN_EXP) eqn:m1;
    try reflexivity;
    destruct (e2' + digits c2' - 1 <? MIN_EXP) eqn:m2;
    try (apply Z.ltb_lt in m1); try (apply Z.ltb_ge in m1);
    try (apply Z.ltb_lt in m2); try (apply Z.ltb_ge in m2);
    try lia; unfold lte, compare; simpl; rewrite ?Hn1, ?Hn2; simpl;
    try reflexivity.
  destruct (cmpMag c1' e1' c2' e2'); try reflexivity. contradiction.
Qed.

Lemma cmpMag_le_le_trans c1 e1 c2 e2 c3 e3 :
  cmpMag c1 e1 c2 e2 <> Gt -> cmpMag c2 e2 c3 e3 <> Gt ->
  cmpMag c1 e1 c3 e3 <> Gt.
Proof.
  set (m := Z.min e1 (Z.min e2 e3)).
  rewrite (cmpMag_scaled m c1 e1 c2 e2), (cmpMag_scaled m c2 e2 c3 e3),
    (cmpMag_scaled m c1 e1 c3 e3) by (unfold m; lia).
  rewrite !N.compare_gt_iff. lia.
Qed.

Lemma lte_trans (x y z : BigNumber) :
  lte x y = true -> lte y z = true -> lte x z = true.
Proof.
  unfold lte, compare.
  destruct x as [ | sx | sx cx ex]; destruct y as [ | sy | sy cy ey];
    destruct z as [ | sz | sz cz ez]; simpl; try discriminate;
    try destruct sx; try destruct sy; try destruct sz; simpl;
    try discriminate; try reflexivity;
    try (destruct (cx =? 0)%N eqn:Zx); try (destruct (cy =? 0)%N eqn:Zy);
    try (destruct (cz =? 0)%N eqn:Zz); simpl;
    try discriminate; try reflexivity.
  all: intros H1 H2.
  - rewrite <- cmpMag_antisym in *.
    pose proof (cmpMag_le_le_trans cz ez cy ey cx ex) as T.
    destruct (cmpMag cz ez cy ey); try discriminate;
      destruct (cmpMag cy ey cx ex); try discriminate;
      destruct (cmpMag cz ez cx ex); try reflexivity;
      exfalso; apply T; congruence.
  - pose proof (cmpMag_le_le_trans cx ex cy ey cz ez) as T.
    destruct (cmpMag cx ex cy ey); try discriminate;
      destruct (cmpMag cy ey cz ez); try discriminate;
      destruct (cmpMag cx ex cz ez); try reflexivity;
      exfalso; apply T; congruence.
Qed.

(** Against a zero, the sign of the zero does not count. *)
Lemma compare_zero_r (x y : BigNumber) :
  isZero y = true -> compare x y = compare x zero.
Proof.
  destruct y as [ | sy | sy cy ey]; simpl; try discriminate.
  intro Zy. destruct x as [ | sx | sx cx ex]; unfold compare; simpl;
    rewrite ?Zy; simpl; try reflexivity.
  destruct (cx =? 0)%N; reflexivity.
Qed.

(** Below something that is at most [z] is below [z]. *)
Lemma lt_lte_trans (x y z : BigNumber) :
  lt x y = true -> lte y z = true -> lt x z = true.
Proof.
  unfold lt, lte, compare.
  destruct x as [ | sx | sx cx ex]; destruct y as [ | sy | sy cy ey];
    destruct z as [ | sz | sz cz ez]; simpl; try discriminate;
    try destruct sx; try destruct sy; try destruct sz; simpl;
    try discriminate; try reflexivity;
    try (destruct (cx =? 0)%N eqn:Zx); try (destruct (cy =? 0)%N eqn:Zy);
    try (destruct (cz =? 0)%N eqn:Zz); simpl;
    try discriminate; try reflexivity.
  all: intros H1 H2.
  - rewrite <- cmpMag_antisym in *.
    rewrite (cmpMag_le_lt_trans cz ez cy ey cx ex); [reflexivity | | ].
    + destruct (cmpMag cz ez cy ey); discriminate.
    + destruct (cmpMag cy ey cx ex); try discriminate. reflexivity.
  - rewrite (cmpMag_lt_le_trans cx ex cy ey cz ez); [reflexivity | | ].
    + destruct (cmpMag cx ex cy ey); try discriminate. reflexivity.
    + destruct (cmpMag cy ey cz ez); discriminate.
Qed.

(** A number at or above zero is a zero, plus Infinity or a positive
    finite number. *)
Lemma nonneg_cases (x : BigNumber) :
  gte x zero = true ->
  (exists s c e, x = Finite s c e /\ (c =? 0)%N = true)
  \/ x = Infinity false
  \/ (exists c e, x = Finite false c e /\ (c =? 0)%N = false).
Proof.
  destruct x as [ | s | s c e]; unfold gte, compare; simpl.
  - discriminate.
  - destruct s; simpl; [discriminate | auto].
  - destruct (c =? 0)%N eqn:Z; simpl.
    + intros _. left. eauto.
    + destruct s; simpl; [discriminate | ]. intros _. right. right. eauto.
Qed.

(** Every number except NaN is at most plus Infinity, and a zero is at
    most every zero, plus Infinity and every positive number. *)
Lemma lte_Infinity (x : BigNumber) :
  isNaN x = false -> lte x (Infinity false) = true.
Proof.
  destruct x as [ | s | s c e]; unfold lte, compare; simpl;
    [discriminate | destruct s; reflexivity | ].
  intros _. destruct (c =? 0)%N; simpl; destruct s; reflexivity.
Qed.

Lemma lte_normalise_Infinity (c : N) (e : Z) :
  lte (normalise false c e) (Infinity false) = true.
Proof.
  apply lte_Infinity.
  destruct (normalise_cases false c e) as [E | (c' & e' & E)];
    rewrite E; reflexivity.
Qed.

Lemma lte_zero_normalise (s : bool) (c0 : N) (e0 : Z) (c : N) (e : Z) :
  (c0 =? 0)%N = true ->
  lte (Finite s c0 e0) (normalise false c e) = true.
Proof.
  intro Z0.
  destruct (normalise_cases false c e) as [E | (c' & e' & E)]; rewrite E;
    unfold lte, compare; simpl; rewrite Z0; simpl; [reflexivity | ].
  destruct (c' =? 0)%N; reflexivity.
Qed.

(** The product with a non-negative factor grows with a non-negative
    amount, where both products are numbers. *)
Lemma times_mono_nonneg (a' a p : BigNumber) :
  gte a' zero = true -> lte a' a = true -> gte p zero = true ->
  isNaN (times a p) = false ->
  isNaN (times a' p) = true \/ lte (times a' p) (times a p) = true.
Proof.
  intros Ha' Hle Hp Hn.
  destruct (nonneg_cases _ Hp)
    as [(sp & cp & ep & -> & Zp) | [-> | (cp & ep & -> & Zp)]];
    destruct (nonneg_cases _ Ha')
      as [(sa' & ca' & ea' & -> & Za') | [-> | (ca' & ea' & -> & Za')]];
    destruct a as [ | sa | sa ca ea]; try discriminate Hle;
    unfold lte, compare in Hle; simpl in Hle; simpl in Hn; simpl;
    rewrite ?Za', ?Zp in *; simpl in *;
    try (destruct sa; simpl in *);
    try (destruct (ca =? 0)%N eqn:Za; simpl in *);
    try discriminate; auto.
  all: try (right; apply lte_normalise_Infinity).
  all: try (right; apply lte_zero_normalise; reflexivity).
  right. apply normalise_mono.
  - apply N.eqb_neq in Za', Zp. lia.
  - apply N.eqb_neq in Za, Zp. lia.
  - rewrite cmpMag_mul_r by (apply N.eqb_neq; exact Zp).
    destruct (cmpMag ca' ea' ca ea); discriminate.
Qed.

End Magnitudes.

(* ================================================================== *)
(** ** More on the amount validator                                    *)
(* ================================================================== *)

Section ValidatorProperties.

Context {H : Host}.

Lemma gt_lt_swap (x y : BigNumber) : gt x y = lt y x.
Proof.
  unfold gt, lt. rewrite (compare_antisym x y).
  destruct (compare x y) as [[ | | ] | ]; reflexivity.
Qed.

Lemma gte_lte_swap (x y : BigNumber) : gte x y = lte y x.
Proof.
  unfold gte, lte. rewrite (compare_antisym x y).
  destruct (compare x y) as [[ | | ] | ]; reflexivity.
Qed.

(** X1. The validator keeps the issues the context holds, in their order,
    and what it adds does not depend on them. *)
Theorem validateAmountMantissa_frame (i : Inputs) (v : string)
  (ctx : RefinementCtx) :
  validateAmountMantissa i v ctx = (ctx ++ validateAmountMantissa i v [])%list
  /\ (List.length (validateAmountMantissa i v ctx)
      <= List.length ctx + 3)%nat.
Proof.
  rewrite (validateAmountMantissa_issues i v ctx).
  rewrite (validateAmountMantissa_issues i v []). simpl app.
  split; [reflexivity | ].
  rewrite !length_app.
  destruct (gt _ (maxSingleTransactionLimitUsd i));
    destruct (gt _ (remainingXvsDailyLimitUsd i));
    destruct (lt (walletBalanceTokens i) _); simpl; lia.
Qed.

(** The amount has no violation exactly when none of the three
    conditions holds. *)
Lemma validateAmountMantissa_nil_iff (i : Inputs) (v : string) :
  validateAmountMantissa i v [] = [] <->
  gt (xvsAmountUsd i v) (maxSingleTransactionLimitUsd i) = false
  /\ gt (xvsAmountUsd i v) (remainingXvsDailyLimitUsd i) = false
  /\ lt (walletBalanceTokens i) (xvsAmountTokens v) = false.
Proof.
  rewrite validateAmountMantissa_issues. simpl app.
  destruct (gt _ (maxSingleTransactionLimitUsd i));
    destruct (gt _ (remainingXvsDailyLimitUsd i));
    destruct (lt (walletBalanceTokens i) _); simpl;
    split; try discriminate; try (intros (? & ? & ?); discriminate); auto.
Qed.

(** X2. While the price is zero, as it is while the price is not loaded, no
    amount exceeds a limit that is at least zero: only the balance is
    checked. *)
Theorem zero_price_checks_balance_only (i : Inputs) (v : string) :
  isZero (xvsPriceUsd i) = true ->
  gte (maxSingleTransactionLimitUsd i) zero = true ->
  gte (remainingXvsDailyLimitUsd i) zero = true ->
  validateAmountMantissa i v [] =
  if lt (walletBalanceTokens i) (xvsAmountTokens v)
  then [doesNotHaveEnoughXvsIssue i] else [].
Proof.
  intros Hz Hs Hd. rewrite validateAmountMantissa_issues. simpl app.
  assert (isNaN (xvsAmountUsd i v) = true
          \/ isZero (xvsAmountUsd i v) = true
          \/ sign (xvsAmountUsd i v) = true) as Hu.
  { unfold xvsAmountUsd.
    destruct (xvsPriceUsd i) as [ | sp | sp cp ep]; try discriminate.
    simpl in Hz.
    destruct (xvsAmountTokens v) as [ | sa | sa ca ea]; simpl;
      rewrite ?Hz, ?orb_true_r; auto. }
  rewrite (nonpos_not_gt _ _ Hu Hs), (nonpos_not_gt _ _ Hu Hd).
  reflexivity.
Qed.

(** X3. While the bridge status is not loaded both limits are zero: the
    single-transaction violation and the daily violation are reported
    together, exactly for the amounts whose USD value is above zero. *)
Theorem missing_status_limits_coincide (i : Inputs) (v : string) :
  getXvsBridgeStatusData i = None ->
  reports "singleTransactionLimitExceeded" (validateAmountMantissa i v [])
  = gt (xvsAmountUsd i v) zero
  /\ reports "dailyTransactionLimitExceeded" (validateAmountMantissa i v [])
     = gt (xvsAmountUsd i v) zero.
Proof.
  intro Hnone. rewrite !reports_validateAmountMantissa.
  unfold maxSingleTransactionLimitUsd, remainingXvsDailyLimitUsd,
    remainingXvsDailyLimit.
  rewrite Hnone. simpl.
  rewrite !andb_true_r, !andb_false_r, !orb_false_r. split; reflexivity.
Qed.

(** X4. With a price that is at least zero, every violation of an amount that
    is at least zero is a violation of every larger amount whose USD
    value is a number. *)
Theorem violations_grow_with_amount (i : Inputs) (v' v p : string) :
  gte (xvsAmountTokens v') zero = true ->
  lte (xvsAmountTokens v') (xvsAmountTokens v) = true ->
  gte (xvsPriceUsd i) zero = true ->
  isNaN (xvsAmountUsd i v) = false ->
  reports p (validateAmountMantissa i v' []) = true ->
  reports p (validateAmountMantissa i v []) = true.
Proof.
  intros Hpos Hle Hp Hn.
  assert (forall m, gt (xvsAmountUsd i v') m = true ->
                    gt (xvsAmountUsd i v) m = true) as Hgt.
  { intros m Hm. rewrite gt_lt_swap in *.
    destruct (times_mono_nonneg _ _ _ Hpos Hle Hp Hn) as [E | E].
    - fold (xvsAmountUsd i v') in E.
      destruct (xvsAmountUsd i v'); try discriminate E.
      rewrite lt_NaN_r in Hm. discriminate.
    - exact (lt_lte_trans _ _ _ Hm E). }
  assert (lt (walletBalanceTokens i) (xvsAmountTokens v') = true ->
          lt (walletBalanceTokens i) (xvsAmountTokens v) = true) as Hlt
      by (intro Hb; exact (lt_lte_trans _ _ _ Hb Hle)).
  rewrite !reports_validateAmountMantissa.
  intro Hr. apply orb_true_iff in Hr. destruct Hr as [Hr | Hr];
    [apply orb_true_iff in Hr; destruct Hr as [Hr | Hr] | ];
    apply andb_true_iff in Hr; destruct Hr as [Hc Hq]; rewrite Hq.
  - rewrite (Hgt _ Hc). reflexivity.
  - rewrite (Hgt _ Hc). simpl. rewrite orb_true_r. reflexivity.
  - rewrite (Hlt Hc). simpl. rewrite !orb_true_r. reflexivity.
Qed.

(** X5. With a price that is at least zero, an amount that is at least zero
    is valid whenever a larger amount, whose USD value is a number, is
    valid. *)
Theorem valid_amounts_downward_closed (i : Inputs) (v' v : string) :
  gte (xvsAmountTokens v') zero = true ->
  lte (xvsAmountTokens v') (xvsAmountTokens v) = true ->
  gte (xvsPriceUsd i) zero = true ->
  isNaN (xvsAmountUsd i v) = false ->
  validateAmountMantissa i v [] = [] ->
  validateAmountMantissa i v' [] = [].
Proof.
  intros Hpos Hle Hp Hn Hvalid.
  apply validateAmountMantissa_nil_iff in Hvalid.
  destruct Hvalid as (Hs & Hd & Hb).
  apply validateAmountMantissa_nil_iff.
  rewrite gt_lt_swap in Hs, Hd. rewrite !gt_lt_swap.
  assert (forall m, lt m (xvsAmountUsd i v) = false ->
                    lt m (xvsAmountUsd i v') = false) as Hm.
  { intros m Hf. destruct (lt m (xvsAmountUsd i v')) eqn:E; [ | reflexivity].
    destruct (times_mono_nonneg _ _ _ Hpos Hle Hp Hn) as [E' | E'].
    - fold (xvsAmountUsd i v') in E'.
      destruct (xvsAmountUsd i v'); try discriminate E'.
      rewrite lt_NaN_r in E. discriminate.
    - assert (lt m (xvsAmountUsd i v) = true) as T
          by exact (lt_lte_trans _ _ _ E E').
      rewrite T in Hf. discriminate. }
  split; [apply Hm, Hs | split; [apply Hm, Hd | ]].
  destruct (lt (walletBalanceTokens i) (xvsAmountTokens v')) eqn:E;
    [ | reflexivity].
  rewrite (lt_lte_trans _ _ _ E Hle) in Hb. discriminate.
Qed.

(** X6. An amount that reads as plus Infinity is reported for the balance
    whenever the balance is a number other than plus Infinity. *)
Theorem infinite_amount_exceeds_balance (i : Inputs) (v : string) :
  xvsAmountTokens v = Infinity false ->
  isNaN (walletBalanceTokens i) = false ->
  walletBalanceTokens i <> Infinity false ->
  reports "doesNotHaveEnoughXvs" (validateAmountMantissa i v []) = true.
Proof.
  intros Ha Hn Hi. rewrite reports_validateAmountMantissa, Ha. simpl.
  rewrite !andb_false_r, andb_true_r. simpl.
  destruct (walletBalanceTokens i) as [ | s | s c e];
    [discriminate | | ]; unfold lt, compare; simpl.
  - destruct s; [reflexivity | contradiction Hi; reflexivity].
  - destruct (c =? 0)%N; simpl; destruct s; reflexivity.
Qed.

(** A whole number within the range of dates reads back as itself. *)
Lemma toNumber_ofZ (z : Z) :
  Z.abs z <= 8640000000000 -> toNumber (ofZ z) = NumInt z.
Proof.
  intro Hz. unfold ofZ.
  destruct (N.eq_dec (Z.abs_N z) 0) as [E0 | Hc].
  - rewrite E0. assert (z = 0) as -> by lia. reflexivity.
  - destruct (normalise_nonzero (z <? 0) (Z.abs_N z) 0 Hc)
      as (c' & e' & Hn & He & Hv & ->).
    replace (e' - 0) with e' in Hv by lia.
    destruct (digits_spec c' Hn) as (Hd & Hlo & _).
    assert (e' + digits c' - 1 < 13) as Hsci.
    { destruct (Z_lt_ge_dec (e' + digits c' - 1) 13) as [ | Hge];
        [assumption | exfalso].
      assert (pow10 13 <= pow10 (digits c' - 1 + e'))%N as A
          by (apply pow10_le; lia).
      rewrite pow10_add in A by lia.
      assert (pow10 (digits c' - 1) * pow10 e' <= c' * pow10 e')%N as B
          by (apply N.mul_le_mono_r; exact Hlo).
      change (pow10 13) with 10000000000000%N in A. lia. }
    replace (MAX_EXP <? e' + digits c' - 1) with false
      by (symmetry; apply Z.ltb_ge; unfold MAX_EXP; lia).
    replace (e' + digits c' - 1 <? MIN_EXP) with false
      by (symmetry; apply Z.ltb_ge; unfold MIN_EXP; lia).
    unfold toNumber.
    replace (0 <=? e') with true by (symmetry; apply Z.leb_le; lia).
    rewrite <- Hv. f_equal.
    destruct (z <? 0) eqn:S; [apply Z.ltb_lt in S | apply Z.ltb_ge in S];
      rewrite N2Z.inj_abs_N; lia.
Qed.

(** X7. In a zone at a fixed offset from UTC the date of every daily
    violation is the instant 86400 seconds after the reset timestamp:
    after the whole number [z] of seconds the loaded bridge status gives,
    and after zero, the timestamp the hook takes while the bridge status
    is not loaded. *)
Theorem daily_violation_date (i : Inputs) (v : string)
  (offset : Z) (issue : ZodIssue) (m : Message) :
  (forall tv, LocalTime tv = tv + offset) ->
  (forall tv, UTC tv = tv - offset) ->
  In issue (validateAmountMantissa i v []) ->
  hasPath "dailyTransactionLimitExceeded" issue = true ->
  messageOf issue = Some m ->
  (forall data z,
      getXvsBridgeStatusData i = Some data ->
      Status.dailyLimitResetTimestamp data = ofZ z ->
      Z.abs z <= 8639999913600 ->
      optionNamed "date" m = [ArgDate (Some ((z + 86400) * 1000))])
  /\ (getXvsBridgeStatusData i = None ->
      optionNamed "date" m = [ArgDate (Some 86400000)]).
Proof.
  intros Hl Hu Hin Hpath Hm.
  rewrite validateAmountMantissa_issues in Hin. simpl app in Hin.
  assert (issue = dailyTransactionLimitExceededIssue i) as ->.
  { repeat (apply in_app_or in Hin; destruct Hin as [Hin | Hin]);
      repeat match type of Hin with
             | In _ (if ?b then _ else _) => destruct b
             end;
      simpl in Hin; try contradiction;
      destruct Hin as [<- | []]; try discriminate Hpath; reflexivity. }
  simpl in Hm. injection Hm as <-.
  unfold optionNamed. simpl.
  split.
  - intros data z Hd Hts Hz. f_equal. f_equal.
    unfold dailyLimitResetTimestamp. rewrite Hd, Hts.
    rewrite toNumber_ofZ by lia.
    apply (reset_date_fixed_offset offset z); try assumption.
    unfold msPerDay. lia.
  - intro Hnone. f_equal. f_equal.
    unfold dailyLimitResetTimestamp. rewrite Hnone.
    change zero with (ofZ 0). rewrite toNumber_ofZ by (simpl; lia).
    apply (reset_date_fixed_offset offset 0); try assumption.
    unfold msPerDay. simpl. lia.
Qed.

(** X8. While the balance of the native token is zero, as it is while the
    balance is not loaded, no BigNumber fee passes the check. *)
Theorem fee_fails_without_native_balance (i : Inputs) (fee : BigNumber) :
  isZero (nativeTokenBalanceMantissa i) = true ->
  validateBridgeFeeMantissa i (UBigNumber fee) = false.
Proof.
  intro Hz. simpl. unfold gt, lte.
  rewrite (compare_zero_r fee _ Hz).
  destruct (compare fee zero) as [[ | | ] | ]; reflexivity.
Qed.

(** X9. A fee that passes the check with one balance of the native token
    passes it with every larger balance. *)
Theorem fee_valid_for_larger_balance (i i' : Inputs) (value : Unknown) :
  lte (nativeTokenBalanceMantissa i) (nativeTokenBalanceMantissa i') = true ->
  validateBridgeFeeMantissa i value = true ->
  validateBridgeFeeMantissa i' value = true.
Proof.
  intros Hle. destruct value as [fee | | d]; simpl; try reflexivity.
  intro Hv. apply andb_true_iff in Hv. destruct Hv as [Hpos Hfee].
  rewrite Hpos, (lte_trans _ _ _ Hfee Hle). reflexivity.
Qed.

End ValidatorProperties.

(* ================================================================== *)
(** ** The chains of the form, facts                                   *)
(* ================================================================== *)

Section ChainFacts.

Variable chains : list Chain.t.
Variables BSC_MAINNET BSC_TESTNET : Z.

Lemma differsFrom_same (chainId : Z) :
  differsFrom chainId (Some chainId) = false.
Proof. unfold differsFrom. rewrite Z.eqb_refl. reflexivity. Qed.

Lemma differsFrom_false (chainId : Z) (formChainId : option Z) :
  differsFrom chainId formChainId = false -> formChainId = Some chainId.
Proof.
  destruct formChainId as [c | ]; simpl; [ | discriminate].
  intro E. apply negb_false_iff, Z.eqb_eq in E. subst. reflexivity.
Qed.

(** X10. After the effect the origin of the form is the chain of the wallet,
    and the effect has nothing left to do: run again on its own result it
    changes nothing. *)
Theorem syncChains_settles (chainId : Z) (form : ChainFields) :
  fromChainId (syncChains chains BSC_MAINNET BSC_TESTNET chainId form)
  = Some chainId
  /\ syncChains chains BSC_MAINNET BSC_TESTNET chainId
       (syncChains chains BSC_MAINNET BSC_TESTNET chainId form)
     = syncChains chains BSC_MAINNET BSC_TESTNET chainId form.
Proof.
  assert (fromChainId (syncChains chains BSC_MAINNET BSC_TESTNET chainId form)
          = Some chainId) as Hfrom.
  { unfold syncChains.
    destruct (differsFrom chainId (fromChainId form)) eqn:D.
    - destruct (negb (chainId =? BSC_MAINNET) && negb (chainId =? BSC_TESTNET));
        reflexivity.
    - apply differsFrom_false, D. }
  split; [exact Hfrom | ].
  unfold syncChains at 1. rewrite Hfrom, differsFrom_same. reflexivity.
Qed.

(** X11. When the wallet moves to one of the two BSC chains, origin and
    destination swap: the destination becomes the former origin, and it
    differs from the new origin. *)
Theorem syncChains_to_bsc (chainId : Z) (form : ChainFields) :
  chainId = BSC_MAINNET \/ chainId = BSC_TESTNET ->
  fromChainId form <> Some chainId ->
  syncChains chains BSC_MAINNET BSC_TESTNET chainId form
  = {| fromChainId := Some chainId; toChainId := fromChainId form |}
  /\ toChainId (syncChains chains BSC_MAINNET BSC_TESTNET chainId form)
     <> fromChainId (syncChains chains BSC_MAINNET BSC_TESTNET chainId form).
Proof.
  intros Hbsc Hne.
  assert (syncChains chains BSC_MAINNET BSC_TESTNET chainId form
          = {| fromChainId := Some chainId; toChainId := fromChainId form |})
    as E.
  { unfold syncChains.
    destruct (differsFrom chainId (fromChainId form)) eqn:D;
      [ | apply differsFrom_false in D; contradiction].
    replace (negb (chainId =? BSC_MAINNET) && negb (chainId =? BSC_TESTNET))
      with false; [reflexivity | ].
    symmetry. destruct Hbsc as [-> | ->]; rewrite Z.eqb_refl; simpl;
      [reflexivity | apply andb_false_r]. }
  split; [exact E | ]. rewrite E. simpl. exact Hne.
Qed.

(** X12. When the wallet moves to a chain that is not one of the two BSC
    chains, the destination becomes a chain of the list whose native
    currency is BNB, and is undefined exactly when the list has no such
    chain. It differs from the origin when the chains whose native
    currency is BNB are the two BSC chains only. *)
Theorem syncChains_to_other (chainId : Z) (form : ChainFields) :
  chainId <> BSC_MAINNET -> chainId <> BSC_TESTNET ->
  fromChainId form <> Some chainId ->
  let form' := syncChains chains BSC_MAINNET BSC_TESTNET chainId form in
  (forall c, toChainId form' = Some c ->
             exists chain, In chain chains /\ Chain.id chain = c
                           /\ Chain.nativeCurrencyName chain = "BNB")
  /\ (toChainId form' = None <->
      forall chain, In chain chains ->
                    Chain.nativeCurrencyName chain <> "BNB")
  /\ ((forall chain, In chain chains ->
                     Chain.nativeCurrencyName chain = "BNB" ->
                     Chain.id chain = BSC_MAINNET
                     \/ Chain.id chain = BSC_TESTNET) ->
      toChainId form' <> fromChainId form').
Proof.
  intros H1 H2 Hne form'.
  assert (toChainId form'
          = option_map Chain.id
              (find (fun c => String.eqb (Chain.nativeCurrencyName c) "BNB")
                    chains)
          /\ fromChainId form' = Some chainId) as [Eto Efrom].
  { unfold form', syncChains.
    destruct (differsFrom chainId (fromChainId form)) eqn:D;
      [ | apply differsFrom_false in D; contradiction].
    apply Z.eqb_neq in H1, H2. rewrite H1, H2. simpl. split; reflexivity. }
  rewrite Eto, Efrom. clear Eto Efrom.
  destruct (find (fun c => String.eqb (Chain.nativeCurrencyName c) "BNB")
                 chains) as [chain | ] eqn:F; simpl.
  - apply find_some in F. destruct F as [Hin Hname].
    apply String.eqb_eq in Hname.
    split; [ | split].
    + intros c E. injection E as <-. exists chain. auto.
    + split; [discriminate | ]. intro Hall.
      exfalso. exact (Hall chain Hin Hname).
    + intros Honly E. injection E as E.
      destruct (Honly chain Hin Hname); congruence.
  - split; [discriminate | split; [ | discriminate]].
    split; [ | reflexivity]. intros _ chain Hin Hname.
    pose proof (find_none _ _ F chain Hin) as N. simpl in N.
    rewrite Hname in N. discriminate.
Qed.

(** X13. The default destination is a chain of the list other than the chain
    of the wallet; it is undefined exactly when the list has no other
    chain. *)
Theorem defaultToChainId_spec (chainId : Z) :
  (forall c, defaultToChainId chains chainId = Some c ->
             c <> chainId
             /\ exists chain, In chain chains /\ Chain.id chain = c)
  /\ (defaultToChainId chains chainId = None <->
      forall chain, In chain chains -> Chain.id chain = chainId).
Proof.
  unfold defaultToChainId.
  destruct (find (fun chain => negb (Chain.id chain =? chainId)) chains)
    as [chain | ] eqn:F; simpl.
  - apply find_some in F. destruct F as [Hin Hid].
    apply negb_true_iff, Z.eqb_neq in Hid.
    split.
    + intros c E. injection E as <-. split; [exact Hid | eauto].
    + split; [discriminate | ]. intro Hall.
      exfalso. exact (Hid (Hall chain Hin)).
  - split; [discriminate | ]. split; [ | reflexivity].
    intros _ chain Hin. pose proof (find_none _ _ F chain Hin) as N.
    simpl in N. apply negb_false_iff, Z.eqb_eq in N. exact N.
Qed.

End ChainFacts.

(* ================================================================== *)
(** ** The schema of the form, facts                                   *)
(* ================================================================== *)

Section FormSchemaFacts.

Context {H : Host}.

Variable isChainId : Z -> bool.

Lemma nativeEnumChainId_nil (field : string) (value : option Z) :
  nativeEnumChainId isChainId field value = [] <->
  exists c, value = Some c /\ isChainId c = true.
Proof.
  unfold nativeEnumChainId. destruct value as [c | ].
  - destruct (isChainId c) eqn:E; split; try discriminate; eauto.
    intros (c' & Ec & Hc). congruence.
  - split; [discriminate | ]. intros (c & Ec & _). discriminate.
Qed.

Lemma amountTokensSchema_nil (i : Inputs) (v : string) :
  amountTokensSchema i v = [] <->
  v <> "" /\ validateAmountMantissa i v [] = [].
Proof.
  unfold amountTokensSchema. destruct v as [ | ch r].
  - simpl. rewrite validateAmountMantissa_issues. simpl. split.
    + discriminate.
    + intros [Hv _]. contradiction Hv. reflexivity.
  - replace (Z.of_nat (String.length (String ch r)) <? 1) with false
      by (symmetry; apply Z.ltb_ge; simpl String.length; lia).
    split; [intro E; split; [discriminate | exact E] | intros [_ E]; exact E].
Qed.

(** X14. The form passes its schema exactly when both chain fields hold a
    chain id, the amount is not empty and has no violation, and the fee
    passes its check. A form with an empty amount, as the default form
    has, does not pass. *)
Theorem formSchema_valid_iff (i : Inputs) (values : FormValues) :
  (formSchema isChainId i values = [] <->
   (exists c, formFromChainId values = Some c /\ isChainId c = true)
   /\ (exists c, formToChainId values = Some c /\ isChainId c = true)
   /\ amountTokens values <> ""
   /\ validateAmountMantissa i (amountTokens values) [] = []
   /\ validateBridgeFeeMantissa i (bridgeEstimatedFeeMantissa values) = true)
  /\ (amountTokens values = "" ->
      In (InAmountTokens (TooSmall 1)) (formSchema isChainId i values)).
Proof.
  split.
  - unfold formSchema. split.
    + intro E.
      apply app_eq_nil in E. destruct E as [E1 E].
      apply app_eq_nil in E. destruct E as [E2 E].
      apply app_eq_nil in E. destruct E as [E3 E4].
      apply map_eq_nil in E3.
      apply nativeEnumChainId_nil in E1, E2.
      apply amountTokensSchema_nil in E3. destruct E3 as [Hv Hvalid].
      repeat (split; [assumption | ]).
      destruct (validateBridgeFeeMantissa i _); [reflexivity | discriminate].
    + intros (F & T & Hv & Hvalid & Hfee).
      rewrite (proj2 (nativeEnumChainId_nil _ _) F).
      rewrite (proj2 (nativeEnumChainId_nil _ _) T).
      rewrite (proj2 (amountTokensSchema_nil _ _) (conj Hv Hvalid)).
      rewrite Hfee. reflexivity.
  - intro Hv. unfold formSchema. rewrite Hv.
    apply in_or_app. right. apply in_or_app. right. apply in_or_app. left.
    apply in_map. unfold amountTokensSchema. simpl.
    rewrite validateAmountMantissa_issues. simpl. left. reflexivity.
Qed.

End FormSchemaFacts.

(* ================================================================== *)
(** ** The authentication provider, facts                              *)
(* ================================================================== *)

Section AuthFacts.

Context {Connector : Type}.

Lemma loginCalls_app (a b : list (@Auth.Call Connector)) :
  Auth.loginCalls (a ++ b)
  = (Auth.loginCalls a ++ Auth.loginCalls b)%list.
Proof. unfold Auth.loginCalls. apply flat_map_app. Qed.

(** X15. Whatever the modal and the consumers trigger, and in whatever order,
    [login] is called once for each login asked for, with its connector
    and in the order asked; and the modal is closed right after a
    login. *)
Theorem login_calls_follow_events (st : @Auth.State Connector)
  (evs : list (@Auth.Event Connector)) :
  Auth.loginCalls (Auth.calls (Auth.run st evs))
  = (Auth.loginCalls (Auth.calls st)
     ++ Auth.loginsOf evs)%list
  /\ (forall c,
         Auth.isAuthModalOpen
           (Auth.run st (evs ++ [Auth.Login c]))
         = false).
Proof.
  split.
  - revert st. induction evs as [ | ev evs IH]; intro st.
    + simpl. rewrite app_nil_r. reflexivity.
    + unfold Auth.run in *. simpl fold_left. rewrite IH.
      destruct ev as [ | | c | a]; simpl; try reflexivity.
      * rewrite loginCalls_app. simpl. rewrite <- app_assoc. reflexivity.
      * rewrite loginCalls_app. simpl. rewrite app_nil_r. reflexivity.
  - intro c. unfold Auth.run. rewrite fold_left_app. reflexivity.
Qed.

End AuthFacts.

(* ================================================================== *)
(** ** The further properties, run                                     *)
(* ================================================================== *)

(** Without a price, 5000 tokens against a balance of 10: only the
    balance violation, whatever the limits of $1000 would say. *)
Lemma zero_price_checks_balance_only_witness :
  isZero (xvsPriceUsd exNoPrice) = true
  /\ validateAmountMantissa exNoPrice "5000" []
     = [doesNotHaveEnoughXvsIssue exNoPrice].
Proof.
  split; [reflexivity | ].
  apply (zero_price_checks_balance_only exNoPrice "5000"); reflexivity.
Defined.

Lemma missing_status_limits_coincide_witness :
  reports "singleTransactionLimitExceeded"
          (validateAmountMantissa exNoStatus "50" []) = true
  /\ reports "dailyTransactionLimitExceeded"
             (validateAmountMantissa exNoStatus "50" []) = true.
Proof.
  destruct (missing_status_limits_coincide exNoStatus "50" eq_refl)
    as [Es Ed].
  split; [rewrite Es | rewrite Ed]; reflexivity.
Defined.

(** 5000 tokens exceed the balance of 100, so do 6000. *)
Lemma violations_grow_with_amount_witness :
  reports "doesNotHaveEnoughXvs" (validateAmountMantissa exValid "5000" [])
  = true
  /\ reports "doesNotHaveEnoughXvs" (validateAmountMantissa exValid "6e3" [])
     = true.
Proof.
  split; [reflexivity | ].
  apply (violations_grow_with_amount exValid "5000" "6e3"
           "doesNotHaveEnoughXvs"); reflexivity.
Defined.

(** 50 tokens are valid, so are 20.5. *)
Lemma valid_amounts_downward_closed_witness :
  validateAmountMantissa exValid "50" [] = []
  /\ validateAmountMantissa exValid "20.5" [] = [].
Proof.
  split; [reflexivity | ].
  apply (valid_amounts_downward_closed exValid "20.5" "50"); reflexivity.
Defined.

Lemma infinite_amount_exceeds_balance_witness :
  reports "doesNotHaveEnoughXvs"
          (validateAmountMantissa exValid "Infinity" []) = true.
Proof.
  apply (infinite_amount_exceeds_balance exValid "Infinity");
    [reflexivity | reflexivity | discriminate].
Defined.

(** In UTC: with the reset timestamp 1700000000 the date is 1700086400
    seconds after the epoch; without a bridge status it is 86400 seconds
    after the epoch. *)
Lemma daily_violation_date_witness :
  (In (dailyTransactionLimitExceededIssue exDaily)
      (validateAmountMantissa exDaily "50" [])
   /\ forall m,
        messageOf (dailyTransactionLimitExceededIssue exDaily) = Some m ->
        optionNamed "date" m = [ArgDate (Some 1700086400000)])
  /\ (In (dailyTransactionLimitExceededIssue exNoStatus)
         (validateAmountMantissa exNoStatus "50" [])
      /\ forall m,
           messageOf (dailyTransactionLimitExceededIssue exNoStatus)
           = Some m ->
           optionNamed "date" m = [ArgDate (Some 86400000)]).
Proof.
  assert (forall tv, @LocalTime utcHost tv = tv + 0) as Hl
      by (intro tv; simpl; lia).
  assert (forall tv, @UTC utcHost tv = tv - 0) as Hu
      by (intro tv; simpl; lia).
  split; split.
  - left. reflexivity.
  - intros m Hm.
    apply (proj1 (daily_violation_date exDaily "50" 0
                    (dailyTransactionLimitExceededIssue exDaily) m
                    Hl Hu (or_introl eq_refl) eq_refl Hm)
             (exampleStatus (ofZ 1000) (ofZ 1000) (ofZ 980) (ofZ 1700000000))
             1700000000);
      [reflexivity | reflexivity | simpl; lia].
  - right. left. reflexivity.
  - intros m Hm.
    apply (proj2 (daily_violation_date exNoStatus "50" 0
                    (dailyTransactionLimitExceededIssue exNoStatus) m
                    Hl Hu (or_intror (or_introl eq_refl)) eq_refl Hm)).
    reflexivity.
Defined.

Lemma fee_fails_without_native_balance_witness :
  isZero (nativeTokenBalanceMantissa exNoNativeBalance) = true
  /\ validateBridgeFeeMantissa exNoNativeBalance (UBigNumber (ofZ 5)) = false.
Proof.
  split; [reflexivity | ].
  apply (fee_fails_without_native_balance exNoNativeBalance (ofZ 5)).
  reflexivity.
Defined.

Lemma fee_valid_for_larger_balance_witness :
  validateBridgeFeeMantissa exValid (UBigNumber (ofZ 5)) = true
  /\ validateBridgeFeeMantissa exLargerNativeBalance (UBigNumber (ofZ 5))
     = true.
Proof.
  split; [reflexivity | ].
  apply (fee_valid_for_larger_balance exValid exLargerNativeBalance);
    reflexivity.
Defined.

(** The wallet moves from Ethereum to BSC while the form bridges from
    Ethereum to BSC: the form then bridges from BSC to Ethereum. *)
Lemma syncChains_to_bsc_witness :
  syncChains exChains 56 97 56 {| fromChainId := Some 1; toChainId := Some 56 |}
  = {| fromChainId := Some 56; toChainId := Some 1 |}.
Proof.
  apply (proj1 (syncChains_to_bsc exChains 56 97 56
                  {| fromChainId := Some 1; toChainId := Some 56 |}
                  (or_introl eq_refl)
                  ltac:(discriminate))).
Defined.

(** The wallet moves from BSC to Sepolia: the destination becomes BSC. *)
Lemma syncChains_to_other_witness :
  toChainId (syncChains exChains 56 97 11155111
               {| fromChainId := Some 56; toChainId := Some 1 |})
  <> fromChainId (syncChains exChains 56 97 11155111
                    {| fromChainId := Some 56; toChainId := Some 1 |}).
Proof.
  apply (proj2 (proj2 (syncChains_to_other exChains 56 97 11155111
                         {| fromChainId := Some 56; toChainId := Some 1 |}
                         ltac:(discriminate) ltac:(discriminate)
                         ltac:(discriminate)))).
  intros chain Hin Hname. simpl in Hin.
  destruct Hin as [<- | [<- | [<- | [<- | []]]]]; simpl in *;
    auto; discriminate.
Defined.

(** On opBNB, with opBNB listed first, the destination the effect picks
    is opBNB itself. *)
Example syncChains_on_opbnb :
  syncChains exChainsOpBnb 56 97 204
    {| fromChainId := Some 56; toChainId := Some 1 |}
  = {| fromChainId := Some 204; toChainId := Some 204 |}.
Proof. reflexivity. Qed.

Lemma defaultToChainId_spec_witness :
  defaultToChainId exChains 56 = Some 97 /\ 97 <> 56.
Proof.
  split; [reflexivity | ].
  apply (proj1 (defaultToChainId_spec exChains 56) 97). reflexivity.
Defined.

(** The form from BSC to Ethereum with 50 tokens and no fee estimate
    passes; with an empty amount it does not. *)
Lemma formSchema_valid_iff_witness :
  formSchema exIsChainId exValid
    {| formFromChainId := Some 56; formToChainId := Some 1;
       amountTokens := "50"; bridgeEstimatedFeeMantissa := UUndefined |}
  = []
  /\ In (InAmountTokens (TooSmall 1))
        (formSchema exIsChainId exValid
           {| formFromChainId := Some 56; formToChainId := Some 1;
              amountTokens := ""; bridgeEstimatedFeeMantissa := UUndefined |}).
Proof.
  split.
  - apply (proj1 (formSchema_valid_iff exIsChainId exValid _)).
    repeat split; try reflexivity; try discriminate;
      eexists; split; reflexivity.
  - apply (proj2 (formSchema_valid_iff exIsChainId exValid _)).
    reflexivity.
Defined.
